(** * Session-state layer of the Argos Translate Streamlit front-end

    A shallow embedding of [streamlit_app.py]: the functions
    [refresh_installed_packages], [translate_text],
    [get_available_language_pairs] and the translation interface of [main]
    (lines 277-373), then [refresh_available_packages], [install_package],
    the sidebar, the history view and [main] as a whole, followed by the
    properties of the specification that concern them and by further
    properties of the code.

    The external translation library, the clock and the widgets are inputs of
    the model; the Streamlit session state, what is rendered and the calls made
    to the library are its state. *)

From Stdlib Require Import List NArith Arith Lia Bool String Ascii.
From Stdlib Require Import Sorted Permutation.
Import ListNotations.

Set Implicit Arguments.

(* ===================================================================== *)
(** ** Python values *)
(* ===================================================================== *)

Module Py.

(** A Python [str] is a sequence of Unicode code points. *)
Definition char := N.
Definition str := list char.

(** A literal of the source, given by its ASCII text. *)
Definition lit (s : string) : str :=
  map N_of_ascii (list_ascii_of_string s).

Definition quote : str := [34%N].

Fixpoint str_eqb (a b : str) : bool :=
  match a, b with
  | [], [] => true
  | x :: a', y :: b' => N.eqb x y && str_eqb a' b'
  | _, _ => false
  end.

(** [str.isspace] on one code point (CPython's whitespace table). *)
Definition isspace (c : char) : bool :=
  ((9 <=? c) && (c <=? 13) || (28 <=? c) && (c <=? 32)
   || (c =? 133) || (c =? 160) || (c =? 5760)
   || (8192 <=? c) && (c <=? 8202)
   || (c =? 8232) || (c =? 8233) || (c =? 8239) || (c =? 8287)
   || (c =? 12288))%N.

Fixpoint lstrip (s : str) : str :=
  match s with
  | [] => []
  | c :: s' => if isspace c then lstrip s' else s
  end.

Definition rstrip (s : str) : str := rev (lstrip (rev s)).

(** [s.strip()] *)
Definition strip (s : str) : str := rstrip (lstrip s).

(** Truth value of a string or a list: non-empty. *)
Definition truthy {A} (l : list A) : bool :=
  match l with [] => false | _ :: _ => true end.

(** Comparison of two [str] by code points, as [<] and [==] on [str]. *)
Fixpoint str_compare (a b : str) : comparison :=
  match a, b with
  | [], [] => Eq
  | [], _ :: _ => Lt
  | _ :: _, [] => Gt
  | x :: a', y :: b' =>
      match N.compare x y with
      | Eq => str_compare a' b'
      | c => c
      end
  end.

(** Comparison of 2-tuples of [str]: first component, then second. *)
Definition pair_compare (p q : str * str) : comparison :=
  match str_compare (fst p) (fst q) with
  | Eq => str_compare (snd p) (snd q)
  | c => c
  end.

(** [p <= q] on tuples. *)
Definition pair_leb (p q : str * str) : bool :=
  match pair_compare p q with Gt => false | _ => true end.

Definition pair_eqb (p q : str * str) : bool :=
  str_eqb (fst p) (fst q) && str_eqb (snd p) (snd q).

(** [sorted(l)]: a stable sort; an element goes before the first element
    of the sorted rest that is not smaller. *)
Fixpoint insert (x : str * str) (l : list (str * str)) : list (str * str) :=
  match l with
  | [] => [x]
  | y :: l' => if pair_leb x y then x :: l else y :: insert x l'
  end.

Fixpoint sorted (l : list (str * str)) : list (str * str) :=
  match l with
  | [] => []
  | x :: l' => insert x (sorted l')
  end.

(** [list(set(l))]: the distinct elements of [l]. The order in which a
    Python set is enumerated is not specified; the model keeps the first
    occurrence of each element, and [sorted_of_set_unique] below shows that
    the order does not matter once the list is sorted. *)
Fixpoint list_set (l : list (str * str)) : list (str * str) :=
  match l with
  | [] => []
  | x :: l' => x :: filter (fun y => negb (pair_eqb x y)) (list_set l')
  end.

(** An instance of [Exception], seen through [str(e)]. *)
Record Exception := { exc_str : str }.

(** What a call into foreign code gives back. *)
Inductive Result (A : Type) : Type :=
| Returned (a : A)
| Raised (e : Exception).
Arguments Returned {A} a.
Arguments Raised {A} e.

(** An iterable as a [for] loop sees it: the items it yields, and the
    exception that ends the iteration if there is one. *)
Record Iterable (A : Type) := {
  yielded : list A;
  stops_with : option Exception
}.

Definition of_list {A} (l : list A) : Iterable A :=
  {| yielded := l; stops_with := None |}.

End Py.

(* ===================================================================== *)
(** ** The external library, as [streamlit_app.py] uses it *)
(* ===================================================================== *)

(** [translation.to_lang], read through [.code] and [.name]. *)
Record LangRef := {
  ref_code : Py.str;
  ref_name : Py.str
}.

Record Translation := {
  to_lang : LangRef
}.

(** An element of [get_installed_languages()], read through [.code],
    [.name] and [.translations_from]. *)
Record Language := {
  code : Py.str;
  name : Py.str;
  translations_from : Py.Result (Py.Iterable Translation)
}.

(** The library at the time of one run of the script. *)
Record Library := {
  get_installed_languages : Py.Result (Py.Iterable Language);
  translate : Py.str -> Py.str -> Py.str -> Py.Result Py.str
}.

Inductive LibCall :=
| CallGetInstalledLanguages
| CallTranslate (text from_code to_code : Py.str).

(* ===================================================================== *)
(** ** Session state and the world of one run *)
(* ===================================================================== *)

(** The dict built at lines 138-143. *)
Record PackageInfo := {
  from_code : Py.str;
  from_name : Py.str;
  to_code : Py.str;
  to_name : Py.str
}.

(** The dict built at lines 357-363. *)
Record TranslationRecord := {
  timestamp : Py.str;
  from_lang : Py.str;
  to_lang_name : Py.str;
  original : Py.str;
  translated : Py.str
}.

(** An entry of [st.session_state.available_packages] (lines 157-163);
    [package] stands for the library's package object. *)
Record AvailablePackageInfo := {
  avail_pair : PackageInfo;
  package : nat
}.

(** [st.session_state] (lines 58-63; [input_text] is the key of the text
    area). *)
Record SessionState := {
  installed_packages : list PackageInfo;
  available_packages : list AvailablePackageInfo;
  translation_history : list TranslationRecord;
  input_text_state : Py.str
}.

(** What the script hands to the rendering layer. *)
Inductive UiEvent :=
| UiError (msg : Py.str)
| UiWarning (msg : Py.str)
| UiInfo (msg : Py.str)
| UiSubheader (msg : Py.str)
| UiMarkdown (msg : Py.str)
| UiCode (body : Py.str)
| UiSelectbox (label : Py.str) (options : list Py.str)
| UiTextArea (label : Py.str)
| UiButton (label : Py.str).

Record World := {
  session : SessionState;
  ui : list UiEvent;
  lib_calls : list LibCall
}.

(** How a piece of the script ends: normally, with an [Exception], or with
    the script-control signal of [st.rerun()], which [except Exception] does
    not catch. *)
Inductive Outcome (A : Type) : Type :=
| Normal (a : A)
| Raise (e : Py.Exception)
| Rerun.
Arguments Normal {A} a.
Arguments Raise {A} e.
Arguments Rerun {A}.

Definition M (A : Type) : Type := World -> Outcome A * World.

Definition ret {A} (a : A) : M A := fun w => (Normal a, w).

Definition bind {A B} (m : M A) (k : A -> M B) : M B :=
  fun w =>
    match m w with
    | (Normal a, w') => k a w'
    | (Raise e, w') => (Raise e, w')
    | (Rerun, w') => (Rerun, w')
    end.

Definition raise {A} (e : Py.Exception) : M A := fun w => (Raise e, w).

Definition rerun {A} : M A := fun w => (Rerun, w).

(** [try: body  except Exception as e: handler e] *)
Definition try_except {A} (body : M A) (handler : Py.Exception -> M A) : M A :=
  fun w =>
    match body w with
    | (Raise e, w') => handler e w'
    | r => r
    end.

Declare Scope py_scope.
Delimit Scope py_scope with py.
Notation "x <- m ;; k" := (bind m (fun x => k))
  (at level 61, m at next level, right associativity) : py_scope.
Notation "m ;; k" := (bind m (fun _ => k))
  (at level 61, right associativity) : py_scope.
Local Open Scope py_scope.

Definition of_result {A} (r : Py.Result A) : M A :=
  match r with
  | Py.Returned a => ret a
  | Py.Raised e => raise e
  end.

Fixpoint for_list {A} (l : list A) (body : A -> M unit) : M unit :=
  match l with
  | [] => ret tt
  | x :: l' => body x ;; for_list l' body
  end.

(** [for x in it: body x] *)
Definition for_each {A} (it : Py.Iterable A) (body : A -> M unit) : M unit :=
  for_list (Py.yielded it) body ;;
  match Py.stops_with it with
  | None => ret tt
  | Some e => raise e
  end.

Definition get_session : M SessionState := fun w => (Normal (session w), w).

Definition set_session (s : SessionState) : M unit :=
  fun w => (Normal tt, {| session := s; ui := ui w; lib_calls := lib_calls w |}).

Definition emit (ev : UiEvent) : M unit :=
  fun w => (Normal tt,
            {| session := session w; ui := ui w ++ [ev]; lib_calls := lib_calls w |}).

Definition log_call (c : LibCall) : M unit :=
  fun w => (Normal tt,
            {| session := session w; ui := ui w; lib_calls := lib_calls w ++ [c] |}).

Definition set_installed_packages (l : list PackageInfo) : M unit :=
  s <- get_session ;;
  set_session {| installed_packages := l;
                 available_packages := available_packages s;
                 translation_history := translation_history s;
                 input_text_state := input_text_state s |}.

Definition set_translation_history (h : list TranslationRecord) : M unit :=
  s <- get_session ;;
  set_session {| installed_packages := installed_packages s;
                 available_packages := available_packages s;
                 translation_history := h;
                 input_text_state := input_text_state s |}.

Definition set_input_text_state (t : Py.str) : M unit :=
  s <- get_session ;;
  set_session {| installed_packages := installed_packages s;
                 available_packages := available_packages s;
                 translation_history := translation_history s;
                 input_text_state := t |}.

(** [l[i]] for the value [i] of a select box; [None] is not an index. *)
Definition py_index {A} (l : list A) (i : option nat) : M A :=
  match i with
  | None =>
      raise {| Py.exc_str :=
                 Py.lit "list indices must be integers or slices, not NoneType" |}
  | Some n =>
      match nth_error l n with
      | Some a => ret a
      | None => raise {| Py.exc_str := Py.lit "list index out of range" |}
      end
  end.

(** The tuples of [get_available_language_pairs]. *)
Definition Pair : Type := Py.str * Py.str * Py.str * Py.str.
Definition pair0 (p : Pair) : Py.str := fst (fst (fst p)).
Definition pair1 (p : Pair) : Py.str := snd (fst (fst p)).
Definition pair2 (p : Pair) : Py.str := snd (fst p).
Definition pair3 (p : Pair) : Py.str := snd p.

(** [f"{lang[1]} ({lang[0]})"] *)
Definition option_label (lang : Py.str * Py.str) : Py.str :=
  snd lang ++ Py.lit " (" ++ fst lang ++ Py.lit ")".

(** The widgets of the translation interface: what the user has chosen
    and pressed when the script runs. *)
Record Widgets := {
  from_lang_choice : nat;
  to_lang_choice : nat;
  input_text : Py.str;
  translate_button : bool;
  clear_button : bool
}.

(** [st.selectbox(label, range(len(options)), format_func=...)]: shows the
    options and gives the chosen index; a choice that is not among the
    options falls back to the first one, and a select box without options
    gives [None]. *)
Definition st_selectbox (label : Py.str) (options : list Py.str) (choice : nat)
  : M (option nat) :=
  emit (UiSelectbox label options) ;;
  ret (match options with
       | [] => None
       | _ :: _ => Some (if choice <? List.length options then choice else 0)
       end).

(* ===================================================================== *)
(** ** The functions of [streamlit_app.py] *)
(* ===================================================================== *)

Section App.

Variable lib : Library.

(** [time.strftime("%Y-%m-%d %H:%M:%S")] at the time of the run. *)
Variable now : Py.str.

Definition st_error (msg : Py.str) : M unit := emit (UiError msg).

(** Lines 129-146. *)
Definition refresh_installed_packages : M unit :=
  try_except
    (log_call CallGetInstalledLanguages ;;
     installed_languages <- of_result (get_installed_languages lib) ;;
     set_installed_packages [] ;;
     for_each installed_languages (fun lang =>
       translations <- of_result (translations_from lang) ;;
       for_each translations (fun translation =>
         let package_info :=
           {| from_code := code lang;
              from_name := name lang;
              to_code := ref_code (to_lang translation);
              to_name := ref_name (to_lang translation) |} in
         s <- get_session ;;
         set_installed_packages (installed_packages s ++ [package_info]))))
    (fun e =>
       st_error (Py.lit "Error refreshing installed packages: " ++ Py.exc_str e)).

(** Lines 179-186. *)
Definition translate_text (text from_code to_code : Py.str) : M Py.str :=
  try_except
    (log_call (CallTranslate text from_code to_code) ;;
     translated_text <- of_result (translate lib text from_code to_code) ;;
     ret translated_text)
    (fun e =>
       st_error (Py.lit "Translation error: " ++ Py.exc_str e) ;;
       ret []).

(** Lines 188-192. *)
Definition get_available_language_pairs : M (list Pair) :=
  refresh_installed_packages ;;
  s <- get_session ;;
  ret (map (fun pkg => (from_code pkg, from_name pkg, to_code pkg, to_name pkg))
           (installed_packages s)).

Definition st_warning (msg : Py.str) : M unit := emit (UiWarning msg).
Definition st_info (msg : Py.str) : M unit := emit (UiInfo msg).
Definition st_subheader (msg : Py.str) : M unit := emit (UiSubheader msg).
Definition st_markdown (msg : Py.str) : M unit := emit (UiMarkdown msg).
Definition st_code (body : Py.str) : M unit := emit (UiCode body).

Definition st_text_area (label value : Py.str) : M Py.str :=
  emit (UiTextArea label) ;; ret value.

Definition st_button (label : Py.str) (pressed : bool) : M bool :=
  emit (UiButton label) ;; ret pressed.

(** Line 293: [sorted(list(set([(pair[0], pair[1]) for pair in available_pairs])))] *)
Definition from_languages (available_pairs : list Pair) : list (Py.str * Py.str) :=
  Py.sorted (Py.list_set (map (fun pair => (pair0 pair, pair1 pair)) available_pairs)).

(** Line 307: [sorted([(pair[2], pair[3]) for pair in available_pairs
    if pair[0] == selected_from_code])] *)
Definition to_languages (available_pairs : list Pair) (selected_from_code : Py.str)
  : list (Py.str * Py.str) :=
  Py.sorted
    (map (fun pair => (pair2 pair, pair3 pair))
         (filter (fun pair => Py.str_eqb (pair0 pair) selected_from_code)
                 available_pairs)).

(** Lines 291-302: the source select box. Gives [selected_from_idx] and
    [selected_from_code]. *)
Definition select_source (available_pairs : list Pair) (choice : nat)
  : M (option nat * Py.str) :=
  st_markdown (Py.lit "**From Language:**") ;;
  let from_options := map option_label (from_languages available_pairs) in
  selected_from_idx <- st_selectbox (Py.lit "Source language:") from_options choice ;;
  lang <- py_index (from_languages available_pairs) selected_from_idx ;;
  ret (selected_from_idx, fst lang).

(** Lines 304-320: the target select box. [None] is the [return] of
    line 320; otherwise [selected_to_idx] and [selected_to_code]. *)
Definition select_target (available_pairs : list Pair) (selected_from_code : Py.str)
    (choice : nat) : M (option (option nat * Py.str)) :=
  st_markdown (Py.lit "**To Language:**") ;;
  let to_options := map option_label (to_languages available_pairs selected_from_code) in
  if Py.truthy to_options then
    selected_to_idx <- st_selectbox (Py.lit "Target language:") to_options choice ;;
    lang <- py_index (to_languages available_pairs selected_from_code) selected_to_idx ;;
    ret (Some (selected_to_idx, fst lang))
  else
    st_error (Py.lit "No target languages available for the selected source language.") ;;
    ret None.

(** Lines 364-367: [insert(0, translation_record)], then the slice [[:10]]. *)
Definition add_to_history (translation_record : TranslationRecord) : M unit :=
  s <- get_session ;;
  set_translation_history (translation_record :: translation_history s) ;;
  s' <- get_session ;;
  set_translation_history (firstn 10 (translation_history s')).

(** Line 354, the f-string of the result box. *)
Definition result_box (to_name translated_text : Py.str) : Py.str :=
  Py.lit "<div class=" ++ Py.quote ++ Py.lit "translation-box" ++ Py.quote
  ++ Py.lit "><h4>" ++ [127919%N] ++ Py.lit " " ++ to_name
  ++ Py.lit ":</h4><p style=" ++ Py.quote
  ++ Py.lit "font-size: 1.1em; line-height: 1.5;" ++ Py.quote ++ Py.lit ">"
  ++ translated_text ++ Py.lit "</p></div>".

(** Lines 346-373: the translation step. *)
Definition perform_translation (available_pairs : list Pair)
    (translate_button : bool) (input_text : Py.str)
    (selected_from_idx selected_to_idx : option nat)
    (selected_from_code selected_to_code : Py.str) : M unit :=
  let from_languages := from_languages available_pairs in
  let to_languages := to_languages available_pairs selected_from_code in
  if translate_button && Py.truthy (Py.strip input_text) then
    translated_text <- translate_text input_text selected_from_code selected_to_code ;;
    if Py.truthy translated_text then
      st_subheader ([128221%N] ++ Py.lit " Translation Result") ;;
      to_l <- py_index to_languages selected_to_idx ;;
      st_markdown (result_box (snd to_l) translated_text) ;;
      from_l <- py_index from_languages selected_from_idx ;;
      to_l' <- py_index to_languages selected_to_idx ;;
      add_to_history {| timestamp := now;
                        from_lang := snd from_l;
                        to_lang_name := snd to_l';
                        original := input_text;
                        translated := translated_text |} ;;
      st_code translated_text
    else ret tt
  else if translate_button && negb (Py.truthy (Py.strip input_text)) then
    st_error (Py.lit "Please enter some text to translate.")
  else ret tt.

Definition getting_started : Py.str :=
  [128161%N] ++ Py.lit " **Getting Started:**" ++ [10%N]
  ++ Py.lit "1. Click 'Load Available Packages' in the sidebar" ++ [10%N]
  ++ Py.lit "2. Select and install a language pair" ++ [10%N]
  ++ Py.lit "3. Start translating!".

(** Lines 277-373 of [main]: the translation interface, from the listing of
    the installed pairs to the translation step. The sidebar before it and
    the history view and footer after it are rendering and package
    management; the layout calls ([st.columns], [st.spinner]) are left out. *)
Definition main_translation_interface (widgets : Widgets) : M unit :=
  available_pairs <- get_available_language_pairs ;;
  if negb (Py.truthy available_pairs) then
    st_warning ([9888%N; 65039%N]
                ++ Py.lit " No translation packages installed! Please install some packages from the sidebar.") ;;
    st_info getting_started
  else
    st_subheader ([128292%N] ++ Py.lit " Select Languages") ;;
    src <- select_source available_pairs (from_lang_choice widgets) ;;
    let selected_from_idx := fst src in
    let selected_from_code := snd src in
    tgt <- select_target available_pairs selected_from_code (to_lang_choice widgets) ;;
    match tgt with
    | None => ret tt
    | Some (selected_to_idx, selected_to_code) =>
        st_subheader ([9997%N; 65039%N] ++ Py.lit " Translation") ;;
        lang <- py_index (from_languages available_pairs) selected_from_idx ;;
        input_text <- st_text_area (Py.lit "Enter text in " ++ snd lang ++ Py.lit ":")
                                   (input_text widgets) ;;
        translate_button <- st_button ([128640%N] ++ Py.lit " Translate")
                                      (translate_button widgets) ;;
        clear_button <- st_button ([128465%N; 65039%N] ++ Py.lit " Clear")
                                  (clear_button widgets) ;;
        (if clear_button then set_input_text_state [] ;; rerun else ret tt) ;;
        perform_translation available_pairs translate_button input_text
                            selected_from_idx selected_to_idx
                            selected_from_code selected_to_code
    end.

End App.

(* ===================================================================== *)
(** ** What the library reports, read off without running the script *)
(* ===================================================================== *)

Definition package_info_of (lang : Language) (translation : Translation) : PackageInfo :=
  {| from_code := code lang;
     from_name := name lang;
     to_code := ref_code (to_lang translation);
     to_name := ref_name (to_lang translation) |}.

(** The edges one language yields, and the error that ends them. *)
Definition edges_of (lang : Language) : list PackageInfo * option Py.Exception :=
  match translations_from lang with
  | Py.Raised e => ([], Some e)
  | Py.Returned translations =>
      (map (package_info_of lang) (Py.yielded translations),
       Py.stops_with translations)
  end.

(** The edges of a list of languages up to the first error. *)
Fixpoint flatten_languages (langs : list Language)
  : list PackageInfo * option Py.Exception :=
  match langs with
  | [] => ([], None)
  | lang :: rest =>
      match edges_of lang with
      | (ps, Some e) => (ps, Some e)
      | (ps, None) =>
          let (qs, r) := flatten_languages rest in (ps ++ qs, r)
      end
  end.

Definition flatten_report (installed_languages : Py.Iterable Language)
  : list PackageInfo * option Py.Exception :=
  match flatten_languages (Py.yielded installed_languages) with
  | (ps, Some e) => (ps, Some e)
  | (ps, None) => (ps, Py.stops_with installed_languages)
  end.

(** The error the library raises in the course of a refresh, if any: by
    the enumeration call, or while the languages and their translations
    are iterated. *)
Definition refresh_error (lib : Library) : option Py.Exception :=
  match get_installed_languages lib with
  | Py.Raised e => Some e
  | Py.Returned installed_languages => snd (flatten_report installed_languages)
  end.

(** A library state given by its installed languages (code, name) and, for
    each, the targets (code, name) it translates to; nothing raises. *)
Definition LanguageEntry : Type := Py.str * Py.str * list (Py.str * Py.str).

Definition language_of (entry : LanguageEntry) : Language :=
  {| code := fst (fst entry);
     name := snd (fst entry);
     translations_from :=
       Py.Returned
         (Py.of_list
            (map (fun t => {| to_lang := {| ref_code := fst t; ref_name := snd t |} |})
                 (snd entry))) |}.

Definition reports (lib : Library) (L : list LanguageEntry) : Prop :=
  get_installed_languages lib = Py.Returned (Py.of_list (map language_of L)).

(** The translation edges of the languages [L], flattened. *)
Definition edges (L : list LanguageEntry) : list Pair :=
  flat_map (fun entry =>
              map (fun t => (fst (fst entry), snd (fst entry), fst t, snd t))
                  (snd entry))
           L.

Definition pair_of (pkg : PackageInfo) : Pair :=
  (from_code pkg, from_name pkg, to_code pkg, to_name pkg).

Definition info_of (p : Pair) : PackageInfo :=
  {| from_code := pair0 p; from_name := pair1 p;
     to_code := pair2 p; to_name := pair3 p |}.

(** An empty or whitespace-only string. *)
Definition blank (text : Py.str) : bool := forallb Py.isspace text.

Definition refresh_message (e : Py.Exception) : UiEvent :=
  UiError (Py.lit "Error refreshing installed packages: " ++ Py.exc_str e).

Definition translation_message (e : Py.Exception) : UiEvent :=
  UiError (Py.lit "Translation error: " ++ Py.exc_str e).

Definition empty_input_message : UiEvent :=
  UiError (Py.lit "Please enter some text to translate.").

Definition no_targets_message : UiEvent :=
  UiError (Py.lit "No target languages available for the selected source language.").

(** Strict order of the tuples, as [<] on them. *)
Definition pair_lt (p q : Py.str * Py.str) : Prop := Py.pair_compare p q = Lt.

(** A world put together from its parts. *)
Definition mk_world (inst : list PackageInfo) (avail : list AvailablePackageInfo)
    (hist : list TranslationRecord) (inp : Py.str) (u : list UiEvent)
    (calls : list LibCall) : World :=
  {| session := {| installed_packages := inst; available_packages := avail;
                   translation_history := hist; input_text_state := inp |};
     ui := u; lib_calls := calls |}.

Definition set_installed (w : World) (inst : list PackageInfo) : World :=
  mk_world inst (available_packages (session w)) (translation_history (session w))
           (input_text_state (session w)) (ui w) (lib_calls w).

Definition add_ui (w : World) (evs : list UiEvent) : World :=
  {| session := session w; ui := ui w ++ evs; lib_calls := lib_calls w |}.

Definition add_call (w : World) (c : LibCall) : World :=
  {| session := session w; ui := ui w; lib_calls := lib_calls w ++ [c] |}.

Definition set_history (w : World) (hist : list TranslationRecord) : World :=
  mk_world (installed_packages (session w)) (available_packages (session w)) hist
           (input_text_state (session w)) (ui w) (lib_calls w).

(** A piece of the script that makes no call to the library. *)
Definition keeps_calls {A} (m : M A) : Prop :=
  forall w, lib_calls (snd (m w)) = lib_calls w.

(* ===================================================================== *)
(** ** Concrete libraries and states used in the examples *)
(* ===================================================================== *)

Module Ex.

Definition en : Py.str := Py.lit "en".
Definition es : Py.str := Py.lit "es".
Definition fr : Py.str := Py.lit "fr".
Definition English : Py.str := Py.lit "English".
Definition Spanish : Py.str := Py.lit "Spanish".
Definition French : Py.str := Py.lit "French".

Definition boom : Py.Exception := {| Py.exc_str := Py.lit "model not found" |}.

Definition en_es : PackageInfo :=
  {| from_code := en; from_name := English; to_code := es; to_name := Spanish |}.

Definition es_fr : PackageInfo :=
  {| from_code := es; from_name := Spanish; to_code := fr; to_name := French |}.

(** A session in which English to Spanish is installed. *)
Definition w0 : World := mk_world [en_es] [] [] [] [] [].

Definition english : LanguageEntry := (en, English, [(es, Spanish)]).

(** Spanish with two translations to French. *)
Definition spanish_twice : LanguageEntry :=
  (es, Spanish, [(fr, French); (fr, French)]).

Definition echo (text from_code to_code : Py.str) : Py.Result Py.str :=
  Py.Returned text.

(** The enumeration call raises. *)
Definition lib_down : Library :=
  {| get_installed_languages := Py.Raised boom;
     translate := fun _ _ _ => Py.Raised boom |}.

(** The enumeration yields Spanish (with its edge to French), then the
    iteration raises. *)
Definition lib_breaks_midway : Library :=
  {| get_installed_languages :=
       Py.Returned {| Py.yielded := [language_of (es, Spanish, [(fr, French)])];
                      Py.stops_with := Some boom |};
     translate := echo |}.

Definition lib_en_es : Library :=
  {| get_installed_languages := Py.Returned (Py.of_list [language_of english]);
     translate := echo |}.

Definition lib_duplicate_edge : Library :=
  {| get_installed_languages := Py.Returned (Py.of_list [language_of spanish_twice]);
     translate := echo |}.

(** English to Spanish is installed, the translation call raises. *)
Definition lib_translate_fails : Library :=
  {| get_installed_languages := Py.Returned (Py.of_list [language_of english]);
     translate := fun _ _ _ => Py.Raised boom |}.

(** The translation call gives the empty string. *)
Definition lib_translate_empty : Library :=
  {| get_installed_languages := Py.Returned (Py.of_list [language_of english]);
     translate := fun _ _ _ => Py.Returned [] |}.

Definition stamp (n : nat) : Py.str := Py.lit "2024-01-01 00:00:" ++ [N.of_nat n].

Definition rec_n (n : nat) : TranslationRecord :=
  {| timestamp := stamp n; from_lang := English; to_lang_name := Spanish;
     original := [N.of_nat n]; translated := [N.of_nat n] |}.

(** Eleven records, numbered in the order in which they are recorded. *)
Definition eleven : list TranslationRecord := map rec_n (seq 1 11).

End Ex.

(* ===================================================================== *)
(** ** Whole runs: what a run of the translation interface leaves behind *)
(* ===================================================================== *)

(** The index a select box gives when it has [n] options. *)
Definition selected_index (n choice : nat) : nat :=
  if choice <? n then choice else 0.

Definition set_input (w : World) (t : Py.str) : World :=
  mk_world (installed_packages (session w)) (available_packages (session w))
           (translation_history (session w)) t (ui w) (lib_calls w).

(** The world after the translation step has shown and recorded the
    result [translated_text] (lines 352-370). *)
Definition after_success (now text from_name to_name translated_text : Py.str)
    (w : World) : World :=
  add_ui
    (set_history
       (add_ui w [UiSubheader ([128221%N] ++ Py.lit " Translation Result");
                  UiMarkdown (result_box to_name translated_text)])
       (firstn 10 ({| timestamp := now; from_lang := from_name;
                      to_lang_name := to_name; original := text;
                      translated := translated_text |}
                   :: translation_history (session w))))
    [UiCode translated_text].

(** Ascending order of the tuples, as [<=] on them. *)
Definition pair_le (p q : Py.str * Py.str) : Prop := Py.pair_leb p q = true.

(** A piece of the script that does not end with an [Exception]. *)
Definition no_exception {A} (o : Outcome A) : Prop :=
  match o with
  | Raise _ => False
  | _ => True
  end.

(* ===================================================================== *)
(** ** The rest of the script: package management, history view, [main] *)
(* ===================================================================== *)

(** A package of [get_available_packages()], read through its four
    attributes; [pkg_id] stands for the object itself. *)
Record Package := {
  pkg_from_code : Py.str;
  pkg_from_name : Py.str;
  pkg_to_code : Py.str;
  pkg_to_name : Py.str;
  pkg_id : nat
}.

Inductive PkgCall :=
| CallUpdatePackageIndex
| CallGetAvailablePackages
| CallDownload (package : nat)
| CallInstallFromPath (download_path : Py.str).

(** [argostranslate.package] and, beside it, [argostranslate.translate] as
    it answers at a given moment. The library has a state of its own, which
    the calls change: each answer is a function of the package calls made
    before it in the run. *)
Record PackageLibrary := {
  update_package_index : list PkgCall -> Py.Result unit;
  get_available_packages : list PkgCall -> Py.Result (Py.Iterable Package);
  download : nat -> list PkgCall -> Py.Result Py.str;
  install_from_path : Py.str -> list PkgCall -> Py.Result unit;
  translate_module : list PkgCall -> Library
}.

(** Everything the script renders, in order: the events of the translation
    interface and the four other kinds of output the script uses. *)
Inductive PageEvent :=
| Shown (ev : UiEvent)
| UiSuccess (msg : Py.str)
| UiHeader (msg : Py.str)
| UiExpander (label : Py.str)
| UiWrite (body : Py.str).

Record PageState := {
  world : World;
  pkg_calls : list PkgCall;
  page : list PageEvent
}.

Definition P (A : Type) : Type := PageState -> Outcome A * PageState.

Definition pret {A} (a : A) : P A := fun p => (Normal a, p).

Definition pbind {A B} (m : P A) (k : A -> P B) : P B :=
  fun p =>
    match m p with
    | (Normal a, p') => k a p'
    | (Raise e, p') => (Raise e, p')
    | (Rerun, p') => (Rerun, p')
    end.

(** [try: body  except Exception as e: handler e] *)
Definition ptry {A} (body : P A) (handler : Py.Exception -> P A) : P A :=
  fun p =>
    match body p with
    | (Raise e, p') => handler e p'
    | r => r
    end.

(** A piece of the translation interface run within the page: what it
    renders is put on the page in the order in which it rendered it. *)
Definition lift {A} (m : M A) : P A :=
  fun p =>
    let (o, w') := m (world p) in
    (o, {| world := w';
           pkg_calls := pkg_calls p;
           page := page p
                   ++ map Shown (skipn (List.length (ui (world p))) (ui w')) |}).

Definition show (ev : PageEvent) : P unit :=
  fun p => (Normal tt,
            {| world := world p; pkg_calls := pkg_calls p; page := page p ++ [ev] |}).

(** A call into [argostranslate.package]: the answer depends on the calls
    made before it. *)
Definition ask {A} (c : PkgCall) (answer : list PkgCall -> Py.Result A) : P A :=
  fun p =>
    (match answer (pkg_calls p) with
     | Py.Returned a => Normal a
     | Py.Raised e => Raise e
     end,
     {| world := world p; pkg_calls := pkg_calls p ++ [c]; page := page p |}).

Declare Scope page_scope.
Notation "x <- m ;; k" := (pbind m (fun x => k))
  (at level 61, m at next level, right associativity) : page_scope.
Notation "m ;; k" := (pbind m (fun _ => k))
  (at level 61, right associativity) : page_scope.

Definition set_available_packages (l : list AvailablePackageInfo) : M unit :=
  s <- get_session ;;
  set_session {| installed_packages := installed_packages s;
                 available_packages := l;
                 translation_history := translation_history s;
                 input_text_state := input_text_state s |}.

(** The dict of lines 157-163. *)
Definition available_info_of (package : Package) : AvailablePackageInfo :=
  {| avail_pair := {| from_code := pkg_from_code package;
                      from_name := pkg_from_name package;
                      to_code := pkg_to_code package;
                      to_name := pkg_to_name package |};
     package := pkg_id package |}.

Definition arrow : Py.str := [8594%N].

(** [f"{pkg['from_name']} -> {pkg['to_name']}"], with the arrow of the
    source (lines 237, 251). *)
Definition pair_label (info : PackageInfo) : Py.str :=
  from_name info ++ Py.lit " " ++ arrow ++ Py.lit " " ++ to_name info.

(** Line 223. *)
Definition installed_line (pkg : PackageInfo) : Py.str :=
  [9989%N] ++ Py.lit " **" ++ from_name pkg ++ Py.lit "** " ++ arrow
  ++ Py.lit " **" ++ to_name pkg ++ Py.lit "**".

(** Lines 257-264. *)
Definition popular_pairs : list (Py.str * Py.str * Py.str) :=
  [ (Py.lit "en", Py.lit "es", Py.lit "English " ++ arrow ++ Py.lit " Spanish");
    (Py.lit "en", Py.lit "fr", Py.lit "English " ++ arrow ++ Py.lit " French");
    (Py.lit "en", Py.lit "de", Py.lit "English " ++ arrow ++ Py.lit " German");
    (Py.lit "es", Py.lit "en", Py.lit "Spanish " ++ arrow ++ Py.lit " English");
    (Py.lit "fr", Py.lit "en", Py.lit "French " ++ arrow ++ Py.lit " English");
    (Py.lit "de", Py.lit "en", Py.lit "German " ++ arrow ++ Py.lit " English") ].

(** The widgets of the sidebar: the buttons pressed and the package
    chosen; [quick_button from_code to_code] is the button of key
    [quick_{from_code}_{to_code}]. *)
Record SidebarWidgets := {
  refresh_installed_button : bool;
  update_index_button : bool;
  load_available_button : bool;
  package_selector : nat;
  install_selected_button : bool;
  quick_button : Py.str -> Py.str -> bool
}.

Section Page.

Local Open Scope page_scope.

Variable plib : PackageLibrary.

(** [time.strftime("%Y-%m-%d %H:%M:%S")] at the time of the run. *)
Variable now : Py.str.

Fixpoint pfor_list {A} (l : list A) (body : A -> P unit) : P unit :=
  match l with
  | [] => pret tt
  | x :: l' => body x ;; pfor_list l' body
  end.

(** [for x in it: body x] *)
Definition pfor_each {A} (it : Py.Iterable A) (body : A -> P unit) : P unit :=
  pfor_list (Py.yielded it) body ;;
  match Py.stops_with it with
  | None => pret tt
  | Some e => fun p => (Raise e, p)
  end.

(** [refresh_installed_packages()] against the library as it answers now. *)
Definition refresh_installed : P unit :=
  fun p => lift (refresh_installed_packages (translate_module plib (pkg_calls p))) p.

(** Lines 148-166; the spinner, like the columns of the sidebar, is layout
    and is left out. *)
Definition refresh_available_packages : P unit :=
  ptry
    (ask CallUpdatePackageIndex (update_package_index plib) ;;
     packages <- ask CallGetAvailablePackages (get_available_packages plib) ;;
     lift (set_available_packages []) ;;
     pfor_each packages (fun package =>
       let package_info := available_info_of package in
       lift (bind get_session (fun s =>
               set_available_packages (available_packages s ++ [package_info])))))
    (fun e =>
       lift (st_error (Py.lit "Error updating package index: " ++ Py.exc_str e))).

(** Lines 168-177, without the spinner. *)
Definition install_package (package_info : AvailablePackageInfo) : P bool :=
  ptry
    (download_path <- ask (CallDownload (package package_info))
                          (download plib (package package_info)) ;;
     ask (CallInstallFromPath download_path)
         (install_from_path plib download_path) ;;
     pret true)
    (fun e =>
       lift (st_error (Py.lit "Error installing package: " ++ Py.exc_str e)) ;;
       pret false).

(** Lines 271-274 and 250-253: install, and on success report, refresh and
    rerun. *)
Definition install_and_rerun (pkg : AvailablePackageInfo) (message : Py.str)
  : P unit :=
  ok <- install_package pkg ;;
  if ok then
    show (UiSuccess message) ;;
    refresh_installed ;;
    lift rerun
  else pret tt.

(** Lines 269-275: the first package of the list with these two codes is
    installed; the [break] ends the search there. *)
Fixpoint quick_install (pkgs : list AvailablePackageInfo)
    (from_code' to_code' display_name : Py.str) : P unit :=
  match pkgs with
  | [] => pret tt
  | pkg :: rest =>
      if Py.str_eqb (from_code (avail_pair pkg)) from_code'
         && Py.str_eqb (to_code (avail_pair pkg)) to_code'
      then install_and_rerun pkg (Py.lit "Installed " ++ display_name)
      else quick_install rest from_code' to_code' display_name
  end.

(** Lines 204-214: the two buttons at the top of the sidebar. *)
Definition sidebar_refresh_buttons (sw : SidebarWidgets) : P unit :=
  pressed <- lift (st_button ([128260%N] ++ Py.lit " Refresh Installed")
                             (refresh_installed_button sw)) ;;
  (if pressed then refresh_installed ;; show (UiSuccess (Py.lit "Refreshed!"))
   else pret tt) ;;
  pressed <- lift (st_button ([128229%N] ++ Py.lit " Update Index")
                             (update_index_button sw)) ;;
  if pressed then refresh_available_packages ;; show (UiSuccess (Py.lit "Updated!"))
  else pret tt.

(** Lines 216-225: the installed packages, the first ten of them. *)
Definition sidebar_installed_list : P unit :=
  lift (st_subheader (Py.lit "Installed Packages")) ;;
  s <- lift get_session ;;
  (if negb (Py.truthy (installed_packages s)) then refresh_installed else pret tt) ;;
  s <- lift get_session ;;
  if Py.truthy (installed_packages s) then
    pfor_list (firstn 10 (installed_packages s))
              (fun pkg => lift (st_markdown (installed_line pkg)))
  else lift (st_info (Py.lit "No packages installed yet. Install some below!")).

(** Lines 233-253: the package select box and its install button. *)
Definition sidebar_install_selected (sw : SidebarWidgets) : P unit :=
  s <- lift get_session ;;
  if Py.truthy (available_packages s) then
    let package_options := map (fun pkg => pair_label (avail_pair pkg))
                               (available_packages s) in
    if Py.truthy package_options then
      selected_package <- lift (st_selectbox (Py.lit "Select package to install:")
                                             package_options (package_selector sw)) ;;
      pressed <- lift (st_button ([128229%N] ++ Py.lit " Install Selected Package")
                                 (install_selected_button sw)) ;;
      if pressed then
        s' <- lift get_session ;;
        pkg_to_install <- lift (py_index (available_packages s') selected_package) ;;
        install_and_rerun pkg_to_install
          (Py.lit "Successfully installed " ++ pair_label (avail_pair pkg_to_install))
      else pret tt
    else pret tt
  else pret tt.

(** Lines 227-253. *)
Definition sidebar_install_new (sw : SidebarWidgets) : P unit :=
  lift (st_subheader (Py.lit "Install New Packages")) ;;
  pressed <- lift (st_button ([128225%N] ++ Py.lit " Load Available Packages")
                             (load_available_button sw)) ;;
  (if pressed then refresh_available_packages else pret tt) ;;
  sidebar_install_selected sw.

(** Lines 266-275: one quick-install button. *)
Definition quick_install_button (sw : SidebarWidgets)
    (entry : Py.str * Py.str * Py.str) : P unit :=
  let from_code' := fst (fst entry) in
  let to_code' := snd (fst entry) in
  let display_name := snd entry in
  pressed <- lift (st_button ([128229%N] ++ Py.lit " " ++ display_name)
                             (quick_button sw from_code' to_code')) ;;
  if pressed then
    s' <- lift get_session ;;
    quick_install (available_packages s') from_code' to_code' display_name
  else pret tt.

(** Lines 255-275. *)
Definition sidebar_quick_install (sw : SidebarWidgets) : P unit :=
  lift (st_subheader (Py.lit "Quick Install")) ;;
  pfor_list popular_pairs (quick_install_button sw).

(** Lines 200-275: the sidebar. *)
Definition sidebar (sw : SidebarWidgets) : P unit :=
  show (UiHeader ([128230%N] ++ Py.lit " Package Management")) ;;
  sidebar_refresh_buttons sw ;;
  sidebar_installed_list ;;
  sidebar_install_new sw ;;
  sidebar_quick_install sw.

(** Lines 380-384: one record of the history view. *)
Definition show_record (record : TranslationRecord) : P unit :=
  show (UiExpander (from_lang record ++ Py.lit " " ++ arrow ++ Py.lit " "
                    ++ to_lang_name record ++ Py.lit " (" ++ timestamp record
                    ++ Py.lit ")")) ;;
  lift (st_markdown (Py.lit "**Original (" ++ from_lang record ++ Py.lit "):**")) ;;
  show (UiWrite (original record)) ;;
  lift (st_markdown (Py.lit "**Translation (" ++ to_lang_name record
                     ++ Py.lit "):**")) ;;
  show (UiWrite (translated record)).

(** Lines 375-384: the history view. *)
Definition history_view : P unit :=
  s <- lift get_session ;;
  if Py.truthy (translation_history s) then
    lift (st_subheader ([128218%N] ++ Py.lit " Recent Translations")) ;;
    pfor_list (firstn 5 (translation_history s)) show_record
  else pret tt.

(** Lines 386-389. *)
Definition footer : P unit :=
  lift (st_markdown (Py.lit "---")) ;;
  lift (st_markdown (Py.lit "**About Argos Translate:** Open-source offline neural machine translation powered by OpenNMT")) ;;
  lift (st_markdown ([128279%N]
                     ++ Py.lit " [GitHub](https://github.com/argosopentech/argos-translate) | "
                     ++ [128214%N]
                     ++ Py.lit " [Documentation](https://argos-translate.readthedocs.io/)")).

(** Lines 196-198. *)
Definition page_header : P unit :=
  lift (st_markdown (Py.lit "<h1 class=" ++ Py.quote ++ Py.lit "main-header"
                     ++ Py.quote ++ Py.lit ">" ++ [127760%N]
                     ++ Py.lit " Argos Translate</h1>")) ;;
  lift (st_markdown (Py.lit "**Open-source offline neural machine translation**")).

End Page.

(** Lines 277-373 once more, with what [main_translation_interface] leaves
    out: whether the run goes on to the history view ([true]) or has taken
    one of the two [return]s of lines 284 and 320 ([false]). The lemma
    [translation_interface_agrees] shows that it is the same run. *)
Definition translation_interface (lib : Library) (now : Py.str) (widgets : Widgets)
  : M bool :=
  available_pairs <- get_available_language_pairs lib ;;
  if negb (Py.truthy available_pairs) then
    st_warning ([9888%N; 65039%N]
                ++ Py.lit " No translation packages installed! Please install some packages from the sidebar.") ;;
    st_info getting_started ;;
    ret false
  else
    st_subheader ([128292%N] ++ Py.lit " Select Languages") ;;
    src <- select_source available_pairs (from_lang_choice widgets) ;;
    let selected_from_idx := fst src in
    let selected_from_code := snd src in
    tgt <- select_target available_pairs selected_from_code (to_lang_choice widgets) ;;
    match tgt with
    | None => ret false
    | Some (selected_to_idx, selected_to_code) =>
        st_subheader ([9997%N; 65039%N] ++ Py.lit " Translation") ;;
        lang <- py_index (from_languages available_pairs) selected_from_idx ;;
        input_text <- st_text_area (Py.lit "Enter text in " ++ snd lang ++ Py.lit ":")
                                   (input_text widgets) ;;
        translate_button <- st_button ([128640%N] ++ Py.lit " Translate")
                                      (translate_button widgets) ;;
        clear_button <- st_button ([128465%N; 65039%N] ++ Py.lit " Clear")
                                  (clear_button widgets) ;;
        (if clear_button then set_input_text_state [] ;; rerun else ret tt) ;;
        perform_translation lib now available_pairs translate_button input_text
                            selected_from_idx selected_to_idx
                            selected_from_code selected_to_code ;;
        ret true
    end.

(** Lines 195-389: [main]. *)
Definition main (plib : PackageLibrary) (now : Py.str) (sw : SidebarWidgets)
    (widgets : Widgets) : P unit :=
  pbind (page_header) (fun _ =>
  pbind (sidebar plib sw) (fun _ =>
  pbind (fun p => lift (translation_interface (translate_module plib (pkg_calls p))
                                              now widgets) p)
        (fun go_on =>
           if go_on then pbind (history_view) (fun _ => footer)
           else pret tt))).

(* ===================================================================== *)
(** ** Notions used to state the properties of the page *)
(* ===================================================================== *)

Definition mk_page (w : World) (calls : list PkgCall) (pg : list PageEvent)
  : PageState :=
  {| world := w; pkg_calls := calls; page := pg |}.

Definition set_available (w : World) (avail : list AvailablePackageInfo) : World :=
  mk_world (installed_packages (session w)) avail (translation_history (session w))
           (input_text_state (session w)) (ui w) (lib_calls w).

Definition index_message (e : Py.Exception) : UiEvent :=
  UiError (Py.lit "Error updating package index: " ++ Py.exc_str e).

Definition install_message (e : Py.Exception) : UiEvent :=
  UiError (Py.lit "Error installing package: " ++ Py.exc_str e).

(** The world and the page after the translation interface has rendered
    [evs]. *)
Definition render (p : PageState) (evs : list UiEvent) : PageState :=
  mk_page (add_ui (world p) evs) (pkg_calls p) (page p ++ map Shown evs).

(** What the history view renders for one record (lines 380-384). *)
Definition record_events (record : TranslationRecord) : list PageEvent :=
  [UiExpander (from_lang record ++ Py.lit " " ++ arrow ++ Py.lit " "
               ++ to_lang_name record ++ Py.lit " (" ++ timestamp record
               ++ Py.lit ")");
   Shown (UiMarkdown (Py.lit "**Original (" ++ from_lang record ++ Py.lit "):**"));
   UiWrite (original record);
   Shown (UiMarkdown (Py.lit "**Translation (" ++ to_lang_name record
                      ++ Py.lit "):**"));
   UiWrite (translated record)].

(** The [UiEvent]s among the events of a page. *)
Definition shown_events (pg : list PageEvent) : list UiEvent :=
  flat_map (fun ev => match ev with Shown e => [e] | _ => [] end) pg.



(** Whether a package has the two codes (line 270). *)
Definition matches (from_code' to_code' : Py.str) (pkg : AvailablePackageInfo) : bool :=
  Py.str_eqb (from_code (avail_pair pkg)) from_code'
  && Py.str_eqb (to_code (avail_pair pkg)) to_code'.

(** No button of the sidebar is pressed. *)
Definition idle (sw : SidebarWidgets) : Prop :=
  refresh_installed_button sw = false
  /\ update_index_button sw = false
  /\ load_available_button sw = false
  /\ install_selected_button sw = false
  /\ forall from_code' to_code', quick_button sw from_code' to_code' = false.

(** From [p] to [p']: the page and the package calls have only been added
    to. *)
Definition grows (p p' : PageState) : Prop :=
  (exists evs, page p' = page p ++ evs)
  /\ (exists calls, pkg_calls p' = pkg_calls p ++ calls).

(** From [p] to [p']: no package call has been made, and the list of
    available packages and the history are the same. *)
Definition quiet (p p' : PageState) : Prop :=
  pkg_calls p' = pkg_calls p
  /\ available_packages (session (world p')) = available_packages (session (world p))
  /\ translation_history (session (world p'))
     = translation_history (session (world p)).

(** Run from [p], the piece [m] does not end with an exception and takes
    the state to one related to [p] by [R]. *)
Definition steps_within (R : PageState -> PageState -> Prop) {A} (m : P A)
    (p : PageState) : Prop :=
  no_exception (fst (m p)) /\ R p (snd (m p)).

Module ExPage.

Definition pkg_en_es : Package :=
  {| pkg_from_code := Ex.en; pkg_from_name := Ex.English;
     pkg_to_code := Ex.es; pkg_to_name := Ex.Spanish; pkg_id := 1 |}.

Definition pkg_en_fr : Package :=
  {| pkg_from_code := Ex.en; pkg_from_name := Ex.English;
     pkg_to_code := Ex.fr; pkg_to_name := Ex.French; pkg_id := 2 |}.

(** A second package for English to Spanish, later in the index. *)
Definition pkg_en_es_bis : Package :=
  {| pkg_from_code := Ex.en; pkg_from_name := Ex.English;
     pkg_to_code := Ex.es; pkg_to_name := Ex.Spanish; pkg_id := 3 |}.

Definition path_of (id : nat) : Py.str := Py.lit "/tmp/argos/" ++ [N.of_nat id].

Definition installed_some (calls : list PkgCall) : bool :=
  existsb (fun c => match c with CallInstallFromPath _ => true | _ => false end) calls.

(** Nothing is installed until a package has been installed; then English
    to Spanish is. *)
Definition translate_module_after (calls : list PkgCall) : Library :=
  if installed_some calls then Ex.lib_en_es
  else {| get_installed_languages := Py.Returned (Py.of_list []);
          translate := Ex.echo |}.

(** Everything works. *)
Definition plib_ok : PackageLibrary :=
  {| update_package_index := fun _ => Py.Returned tt;
     get_available_packages :=
       fun _ => Py.Returned (Py.of_list [pkg_en_fr; pkg_en_es; pkg_en_es_bis]);
     download := fun id _ => Py.Returned (path_of id);
     install_from_path := fun _ _ => Py.Returned tt;
     translate_module := translate_module_after |}.

(** The index cannot be updated. *)
Definition plib_offline : PackageLibrary :=
  {| update_package_index := fun _ => Py.Raised Ex.boom;
     get_available_packages := fun _ => Py.Returned (Py.of_list [pkg_en_es]);
     download := fun _ _ => Py.Raised Ex.boom;
     install_from_path := fun _ _ => Py.Returned tt;
     translate_module := fun _ => Ex.lib_down |}.

(** The index is updated, the listing breaks after the first package. *)
Definition plib_listing_breaks : PackageLibrary :=
  {| update_package_index := fun _ => Py.Returned tt;
     get_available_packages :=
       fun _ => Py.Returned {| Py.yielded := [pkg_en_fr];
                               Py.stops_with := Some Ex.boom |};
     download := fun id _ => Py.Returned (path_of id);
     install_from_path := fun _ _ => Py.Returned tt;
     translate_module := translate_module_after |}.

Definition p0 : PageState := mk_page Ex.w0 [] [].

(** A session with the three packages of [plib_ok] listed. *)
Definition p_listed : PageState :=
  mk_page (set_available Ex.w0
             (map available_info_of [pkg_en_fr; pkg_en_es; pkg_en_es_bis])) [] [].

(** A fresh session (lines 58-63): nothing stored, nothing rendered. *)
Definition p_fresh : PageState := mk_page (mk_world [] [] [] [] [] []) [] [].

Definition hello : Widgets :=
  {| from_lang_choice := 0; to_lang_choice := 0; input_text := Py.lit "Hello";
     translate_button := true; clear_button := false |}.

Definition no_button : SidebarWidgets :=
  {| refresh_installed_button := false; update_index_button := false;
     load_available_button := false; package_selector := 0;
     install_selected_button := false; quick_button := fun _ _ => false |}.

Definition press_refresh : SidebarWidgets :=
  {| refresh_installed_button := true; update_index_button := false;
     load_available_button := false; package_selector := 0;
     install_selected_button := false; quick_button := fun _ _ => false |}.

End ExPage.

(* ===================================================================== *)
(** ** Strings and sorting *)
(* ===================================================================== *)

Lemma str_eqb_eq (a b : Py.str) : Py.str_eqb a b = true <-> a = b.
Proof.
  revert b; induction a as [|x a IH]; intros [|y b]; simpl; split;
    try congruence; try reflexivity.
  - intros H. apply andb_true_iff in H as [H1 H2].
    apply N.eqb_eq in H1. apply IH in H2. congruence.
  - intros H. injection H as -> ->.
    rewrite N.eqb_refl. simpl. now apply IH.
Qed.

Lemma pair_eqb_eq (p q : Py.str * Py.str) : Py.pair_eqb p q = true <-> p = q.
Proof.
  destruct p as [a b], q as [c d]. unfold Py.pair_eqb. simpl.
  rewrite andb_true_iff, !str_eqb_eq. split.
  - intros [-> ->]. reflexivity.
  - intros H. injection H as -> ->. auto.
Qed.

Lemma lstrip_blank (s : Py.str) : blank s = true -> Py.lstrip s = [].
Proof.
  induction s as [|c s IH]; simpl; [reflexivity|].
  intros H. apply andb_true_iff in H as [Hc Hs]. rewrite Hc. auto.
Qed.

Lemma lstrip_nil_blank (s : Py.str) : Py.lstrip s = [] -> blank s = true.
Proof.
  induction s as [|c s IH]; simpl; [reflexivity|].
  destruct (Py.isspace c); simpl; [exact IH | discriminate].
Qed.

Lemma strip_blank_iff (s : Py.str) : Py.strip s = [] <-> blank s = true.
Proof.
  unfold Py.strip, Py.rstrip. split.
  - intros H.
    destruct (Py.lstrip s) as [|c r] eqn:E; [now apply lstrip_nil_blank|].
    exfalso.
    assert (Hc : Py.isspace c = false).
    { clear H. induction s as [|x s IH]; simpl in E; [discriminate|].
      destruct (Py.isspace x) eqn:Ex; [auto | congruence]. }
    assert (Hr : Py.lstrip (rev (c :: r)) <> []).
    { intros Hn. apply lstrip_nil_blank in Hn. unfold blank in Hn.
      rewrite forallb_forall in Hn.
      specialize (Hn c). rewrite <- in_rev in Hn.
      rewrite Hn in Hc; [discriminate | now left]. }
    apply Hr. apply (f_equal (@rev _)) in H. rewrite rev_involutive in H.
    exact H.
  - intros H. now rewrite (lstrip_blank _ H).
Qed.

Lemma truthy_strip (s : Py.str) : Py.truthy (Py.strip s) = negb (blank s).
Proof.
  destruct (blank s) eqn:E.
  - apply strip_blank_iff in E. now rewrite E.
  - destruct (Py.strip s) eqn:E'; [|reflexivity].
    apply strip_blank_iff in E'. congruence.
Qed.

Lemma str_compare_eq (a b : Py.str) : Py.str_compare a b = Eq <-> a = b.
Proof.
  revert b; induction a as [|x a IH]; intros [|y b]; simpl; split;
    try congruence; try reflexivity.
  - destruct (N.compare x y) eqn:E; try discriminate.
    apply N.compare_eq_iff in E. intros H. apply IH in H. congruence.
  - intros H. injection H as -> ->. rewrite N.compare_refl. now apply IH.
Qed.

Lemma str_compare_opp (a b : Py.str) :
  Py.str_compare b a = CompOpp (Py.str_compare a b).
Proof.
  revert b; induction a as [|x a IH]; intros [|y b]; simpl; try reflexivity.
  rewrite (N.compare_antisym x y).
  destruct (N.compare x y); simpl; auto.
Qed.

Lemma str_compare_lt_trans (a b c : Py.str) :
  Py.str_compare a b = Lt -> Py.str_compare b c = Lt -> Py.str_compare a c = Lt.
Proof.
  revert b c; induction a as [|x a IH]; intros [|y b] [|z c]; simpl;
    try congruence.
  destruct (N.compare x y) eqn:Exy; try discriminate;
    destruct (N.compare y z) eqn:Eyz; try discriminate; intros H1 H2.
  - apply N.compare_eq_iff in Exy, Eyz. subst. rewrite N.compare_refl. eauto.
  - apply N.compare_eq_iff in Exy. subst. now rewrite Eyz.
  - apply N.compare_eq_iff in Eyz. subst. now rewrite Exy.
  - rewrite N.compare_lt_iff in Exy, Eyz.
    assert (E : (x ?= z)%N = Lt) by (apply N.compare_lt_iff; lia).
    now rewrite E.
Qed.

Lemma pair_compare_eq (p q : Py.str * Py.str) : Py.pair_compare p q = Eq <-> p = q.
Proof.
  destruct p as [a b], q as [c d]. unfold Py.pair_compare. simpl. split.
  - destruct (Py.str_compare a c) eqn:E; try discriminate.
    apply str_compare_eq in E. intros H. apply str_compare_eq in H. congruence.
  - intros H. injection H as -> ->.
    rewrite (proj2 (str_compare_eq c c) eq_refl). now apply str_compare_eq.
Qed.

Lemma pair_compare_opp (p q : Py.str * Py.str) :
  Py.pair_compare q p = CompOpp (Py.pair_compare p q).
Proof.
  unfold Py.pair_compare.
  rewrite (str_compare_opp (fst p) (fst q)), (str_compare_opp (snd p) (snd q)).
  destruct (Py.str_compare (fst p) (fst q)); reflexivity.
Qed.

Lemma pair_lt_trans (p q r : Py.str * Py.str) :
  pair_lt p q -> pair_lt q r -> pair_lt p r.
Proof.
  unfold pair_lt, Py.pair_compare.
  destruct (Py.str_compare (fst p) (fst q)) eqn:E1; try discriminate;
    destruct (Py.str_compare (fst q) (fst r)) eqn:E2; try discriminate;
    intros H1 H2.
  - apply str_compare_eq in E1, E2. rewrite E1, E2.
    rewrite (proj2 (str_compare_eq _ _) eq_refl).
    eapply str_compare_lt_trans; eauto.
  - apply str_compare_eq in E1. rewrite E1, E2. reflexivity.
  - apply str_compare_eq in E2. rewrite <- E2, E1. reflexivity.
  - now rewrite (str_compare_lt_trans _ _ _ E1 E2).
Qed.

Lemma pair_lt_irrefl (p : Py.str * Py.str) : ~ pair_lt p p.
Proof.
  unfold pair_lt. rewrite (proj2 (pair_compare_eq p p) eq_refl). discriminate.
Qed.

Lemma pair_leb_false_lt (p q : Py.str * Py.str) :
  Py.pair_leb p q = false -> pair_lt q p.
Proof.
  unfold Py.pair_leb, pair_lt. rewrite (pair_compare_opp p q).
  destruct (Py.pair_compare p q); simpl; congruence.
Qed.

Lemma pair_leb_true_lt (p q : Py.str * Py.str) :
  Py.pair_leb p q = true -> p <> q -> pair_lt p q.
Proof.
  unfold Py.pair_leb, pair_lt. intros H Hne.
  destruct (Py.pair_compare p q) eqn:E; try congruence.
  apply pair_compare_eq in E. contradiction.
Qed.

Lemma insert_In (x y : Py.str * Py.str) (l : list (Py.str * Py.str)) :
  In y (Py.insert x l) <-> y = x \/ In y l.
Proof.
  induction l as [|z l IH]; simpl.
  - intuition congruence.
  - destruct (Py.pair_leb x z); simpl; rewrite ?IH; intuition congruence.
Qed.

Lemma sorted_In (y : Py.str * Py.str) (l : list (Py.str * Py.str)) :
  In y (Py.sorted l) <-> In y l.
Proof.
  induction l as [|x l IH]; simpl; [reflexivity|].
  rewrite insert_In, IH. intuition congruence.
Qed.

Lemma sorted_length (l : list (Py.str * Py.str)) :
  List.length (Py.sorted l) = List.length l.
Proof.
  induction l as [|x l IH]; simpl; [reflexivity|].
  rewrite <- IH. generalize (Py.sorted l). clear.
  intros s. induction s as [|z s IH]; simpl; [reflexivity|].
  destruct (Py.pair_leb x z); simpl; congruence.
Qed.

Lemma insert_strictly_sorted (x : Py.str * Py.str) (l : list (Py.str * Py.str)) :
  ~ In x l -> StronglySorted pair_lt l -> StronglySorted pair_lt (Py.insert x l).
Proof.
  induction l as [|z l IH]; simpl; intros Hx Hs.
  - repeat constructor.
  - apply StronglySorted_inv in Hs as [Hs Hz].
    destruct (Py.pair_leb x z) eqn:E.
    + assert (Hxz : pair_lt x z) by (apply pair_leb_true_lt; intuition congruence).
      constructor; [constructor; assumption|].
      constructor; [assumption|].
      eapply Forall_impl; [|exact Hz]. intros a Ha. eapply pair_lt_trans; eauto.
    + constructor; [apply IH; tauto|].
      apply Forall_forall. intros a Ha. apply insert_In in Ha as [->|Ha].
      * now apply pair_leb_false_lt.
      * rewrite Forall_forall in Hz. auto.
Qed.

Lemma sorted_strictly_sorted (l : list (Py.str * Py.str)) :
  NoDup l -> StronglySorted pair_lt (Py.sorted l).
Proof.
  induction 1 as [|x l Hx Hnd IH]; simpl; [constructor|].
  apply insert_strictly_sorted; [|assumption].
  now rewrite sorted_In.
Qed.

Lemma strictly_sorted_NoDup (l : list (Py.str * Py.str)) :
  StronglySorted pair_lt l -> NoDup l.
Proof.
  induction 1 as [|x l Hs IH Hx]; constructor; [|assumption].
  intros Hin. rewrite Forall_forall in Hx. exact (pair_lt_irrefl (Hx _ Hin)).
Qed.

(** Two strictly ascending lists with the same elements are the same list. *)
Lemma strictly_sorted_unique (l1 l2 : list (Py.str * Py.str)) :
  StronglySorted pair_lt l1 -> StronglySorted pair_lt l2 ->
  (forall x, In x l1 <-> In x l2) -> l1 = l2.
Proof.
  intros H1; revert l2; induction H1 as [|a l1 Hs1 IH Ha]; intros l2 H2 Heq.
  - destruct l2 as [|b l2]; [reflexivity|].
    exfalso. apply (proj2 (Heq b)). now left.
  - destruct H2 as [|b l2 Hs2 Hb].
    { exfalso. apply (proj1 (Heq a)). now left. }
    rewrite Forall_forall in Ha, Hb.
    assert (a = b).
    { destruct (proj1 (Heq a) (or_introl eq_refl)) as [E|Hin1]; [congruence|].
      destruct (proj2 (Heq b) (or_introl eq_refl)) as [E|Hin2]; [congruence|].
      exfalso. apply (@pair_lt_irrefl a).
      eapply pair_lt_trans; [apply Ha, Hin2 | apply Hb, Hin1]. }
    subst b. f_equal. apply IH; [assumption|].
    intros x. split; intros Hin.
    + destruct (proj1 (Heq x) (or_intror Hin)) as [E|?]; [|assumption].
      subst x. exfalso. exact (pair_lt_irrefl (Ha _ Hin)).
    + destruct (proj2 (Heq x) (or_intror Hin)) as [E|?]; [|assumption].
      subst x. exfalso. exact (pair_lt_irrefl (Hb _ Hin)).
Qed.

Lemma list_set_In (y : Py.str * Py.str) (l : list (Py.str * Py.str)) :
  In y (Py.list_set l) <-> In y l.
Proof.
  induction l as [|x l IH]; simpl; [reflexivity|].
  rewrite filter_In, IH. split.
  - intuition.
  - intros [->|Hin]; [now left|].
    destruct (Py.pair_eqb x y) eqn:E.
    + apply pair_eqb_eq in E. now left.
    + right. split; [assumption | reflexivity].
Qed.

Lemma list_set_NoDup (l : list (Py.str * Py.str)) : NoDup (Py.list_set l).
Proof.
  induction l as [|x l IH]; simpl; constructor.
  - rewrite filter_In. intros [_ H].
    rewrite (proj2 (pair_eqb_eq x x) eq_refl) in H. discriminate.
  - now apply NoDup_filter.
Qed.

(** Whatever the order in which the set of line 293 is enumerated, sorting
    gives the list the model computes. *)
Lemma sorted_of_set_unique (l enumeration : list (Py.str * Py.str)) :
  NoDup enumeration -> (forall x, In x enumeration <-> In x l) ->
  Py.sorted enumeration = Py.sorted (Py.list_set l).
Proof.
  intros Hnd Hin. apply strictly_sorted_unique.
  - now apply sorted_strictly_sorted.
  - apply sorted_strictly_sorted, list_set_NoDup.
  - intros x. now rewrite !sorted_In, list_set_In.
Qed.

(* ===================================================================== *)
(** ** [refresh_installed_packages] *)
(* ===================================================================== *)

Lemma set_installed_same (w : World) :
  set_installed w (installed_packages (session w)) = w.
Proof. destruct w as [[i a h t] u c]. reflexivity. Qed.

Lemma set_installed_twice (w : World) (l1 l2 : list PackageInfo) :
  set_installed (set_installed w l1) l2 = set_installed w l2.
Proof. reflexivity. Qed.

(** The inner loop (lines 137-144) appends the edges of [lang] in order. *)
Lemma translations_loop (lang : Language) (ts : list Translation) (w : World) :
  for_list ts
    (fun translation =>
       s <- get_session ;;
       set_installed_packages
         (installed_packages s ++ [package_info_of lang translation])) w
  = (Normal tt,
     set_installed w (installed_packages (session w) ++ map (package_info_of lang) ts)).
Proof.
  revert w. induction ts as [|t ts IH]; intros w; simpl.
  - rewrite app_nil_r, set_installed_same. reflexivity.
  - unfold bind at 1. simpl. rewrite IH. simpl.
    rewrite <- app_assoc. reflexivity.
Qed.

(** The outer loop (lines 135-144) appends the edges language by language
    and stops at the first error. *)
Lemma languages_loop (langs : list Language) (w : World) :
  for_list langs
    (fun lang =>
       translations <- of_result (translations_from lang) ;;
       for_each translations
         (fun translation =>
            s <- get_session ;;
            set_installed_packages
              (installed_packages s ++ [package_info_of lang translation]))) w
  = (match snd (flatten_languages langs) with
     | None => Normal tt
     | Some e => Raise e
     end,
     set_installed w (installed_packages (session w) ++ fst (flatten_languages langs))).
Proof.
  revert w. induction langs as [|lang langs IH]; intros w.
  - simpl. rewrite app_nil_r, set_installed_same. reflexivity.
  - cbn [for_list flatten_languages]. unfold bind at 1. unfold bind at 1.
    unfold edges_of.
    destruct (translations_from lang) as [translations|e]; cbn [of_result ret raise].
    + unfold for_each at 1. unfold bind at 1. rewrite translations_loop.
      destruct (Py.stops_with translations) as [e|]; cbn [ret raise fst snd].
      * reflexivity.
      * rewrite IH. cbn [session set_installed mk_world installed_packages].
        destruct (flatten_languages langs) as [qs r]. cbn [fst snd].
        rewrite app_assoc. reflexivity.
    + cbn [fst snd]. rewrite app_nil_r, set_installed_same. reflexivity.
Qed.

(** What one refresh does, case by case. *)
Lemma refresh_installed_packages_run (lib : Library) (w : World) :
  refresh_installed_packages lib w =
  match get_installed_languages lib with
  | Py.Raised e =>
      (Normal tt, add_ui (add_call w CallGetInstalledLanguages) [refresh_message e])
  | Py.Returned installed_languages =>
      (Normal tt,
       add_ui (set_installed (add_call w CallGetInstalledLanguages)
                             (fst (flatten_report installed_languages)))
              (match snd (flatten_report installed_languages) with
               | Some e => [refresh_message e]
               | None => []
               end))
  end.
Proof.
  unfold refresh_installed_packages, try_except, bind at 1. simpl.
  destruct (get_installed_languages lib) as [it|e]; simpl.
  - unfold bind at 1. simpl. unfold bind at 1. simpl.
    unfold for_each, bind at 1.
    change (fun lang : Language => _) with
      (fun lang =>
         translations <- of_result (translations_from lang) ;;
         for_each translations
           (fun translation =>
              s <- get_session ;;
              set_installed_packages
                (installed_packages s ++ [package_info_of lang translation]))).
    rewrite languages_loop. simpl. unfold flatten_report.
    destruct (flatten_languages (Py.yielded it)) as [ps [e|]]; simpl.
    + reflexivity.
    + destruct (Py.stops_with it) as [e|]; simpl.
      * reflexivity.
      * unfold add_ui. simpl. rewrite app_nil_r. reflexivity.
  - reflexivity.
Qed.

(** C1, as the specification states it, fails: when the iteration over the
    languages raises after Spanish has been yielded, the stored list
    [English -> Spanish] has already been replaced by [Spanish -> French]. *)
Lemma refresh_keeps_installed_counterexample :
  ~ (forall (lib : Library) (w : World) (e : Py.Exception),
       refresh_error lib = Some e ->
       fst (refresh_installed_packages lib w) = Normal tt
       /\ installed_packages (session (snd (refresh_installed_packages lib w)))
          = installed_packages (session w)
       /\ In (refresh_message e) (ui (snd (refresh_installed_packages lib w)))).
Proof.
  intros H.
  destruct (H Ex.lib_breaks_midway Ex.w0 Ex.boom eq_refl) as (_ & Hinst & _).
  vm_compute in Hinst. discriminate Hinst.
Qed.

(** C1 (amended): for every error [e] the library raises during
    [refresh_installed_packages], no exception propagates, the message
    "Error refreshing installed packages: e" is surfaced, and the history and
    the list of available packages are untouched. The stored installed list
    is untouched when the enumeration call itself raises; when the error comes
    while the languages and their translations are iterated, the stored list
    has been replaced by the pairs flattened before the error. *)
Theorem refresh_installed_fails_softly (lib : Library) (w : World) (e : Py.Exception) :
  refresh_error lib = Some e ->
  fst (refresh_installed_packages lib w) = Normal tt
  /\ ui (snd (refresh_installed_packages lib w)) = ui w ++ [refresh_message e]
  /\ translation_history (session (snd (refresh_installed_packages lib w)))
     = translation_history (session w)
  /\ available_packages (session (snd (refresh_installed_packages lib w)))
     = available_packages (session w)
  /\ installed_packages (session (snd (refresh_installed_packages lib w)))
     = match get_installed_languages lib with
       | Py.Raised _ => installed_packages (session w)
       | Py.Returned installed_languages => fst (flatten_report installed_languages)
       end.
Proof.
  unfold refresh_error. rewrite refresh_installed_packages_run.
  destruct (get_installed_languages lib) as [it|e0]; cbn [fst snd].
  - intros ->. repeat split; reflexivity.
  - intros [= ->]. repeat split; reflexivity.
Qed.

Lemma refresh_installed_fails_softly_witness :
  refresh_error Ex.lib_down = Some Ex.boom
  /\ fst (refresh_installed_packages Ex.lib_down Ex.w0) = Normal tt
  /\ installed_packages (session (snd (refresh_installed_packages Ex.lib_down Ex.w0)))
     = [Ex.en_es].
Proof.
  split; [reflexivity|].
  destruct (@refresh_installed_fails_softly Ex.lib_down Ex.w0 Ex.boom eq_refl)
    as (H1 & _ & _ & _ & H2).
  split; [exact H1 | exact H2].
Defined.

(** When nothing raises, a refresh stores the reported pairs. *)
Lemma refresh_installed_ok (lib : Library) (w : World)
    (installed_languages : Py.Iterable Language) :
  get_installed_languages lib = Py.Returned installed_languages ->
  snd (flatten_report installed_languages) = None ->
  refresh_installed_packages lib w
  = (Normal tt,
     add_ui (set_installed (add_call w CallGetInstalledLanguages)
                           (fst (flatten_report installed_languages))) []).
Proof.
  intros H1 H2. rewrite refresh_installed_packages_run, H1, H2. reflexivity.
Qed.

(* ===================================================================== *)
(** ** [get_available_language_pairs] *)
(* ===================================================================== *)

Lemma flatten_languages_clean (L : list LanguageEntry) :
  flatten_languages (map language_of L) = (map info_of (edges L), None).
Proof.
  induction L as [|[[c n] ts] L IH]; [reflexivity|].
  cbn [map flatten_languages]. unfold edges_of. cbn [language_of translations_from].
  cbn [Py.of_list Py.yielded Py.stops_with fst snd].
  rewrite IH. unfold edges. cbn [flat_map fst snd].
  rewrite map_app, !map_map. reflexivity.
Qed.

Lemma pair_of_info_of (p : Pair) : pair_of (info_of p) = p.
Proof. destruct p as [[[a b] c] d]. reflexivity. Qed.

Lemma get_available_language_pairs_run (lib : Library) (w : World) :
  get_available_language_pairs lib w
  = (Normal (map pair_of
                 (installed_packages (session (snd (refresh_installed_packages lib w))))),
     snd (refresh_installed_packages lib w)).
Proof.
  unfold get_available_language_pairs, bind.
  rewrite refresh_installed_packages_run.
  destruct (get_installed_languages lib); reflexivity.
Qed.

(** C5, as the specification states it, fails: the library may report the
    same edge twice (here Spanish -> French), and the list returned then
    holds it twice. *)
Lemma available_pairs_no_duplicates_counterexample :
  ~ (forall (lib : Library) (L : list LanguageEntry) (w : World),
       reports lib L ->
       exists pairs w',
         get_available_language_pairs lib w = (Normal pairs, w')
         /\ NoDup pairs
         /\ forall p, In p pairs <-> In p (edges L)).
Proof.
  intros H.
  destruct (H Ex.lib_duplicate_edge [Ex.spanish_twice] Ex.w0 eq_refl)
    as (pairs & w' & Hrun & Hnd & _).
  vm_compute in Hrun. injection Hrun as <- _.
  inversion Hnd as [|x l Hnotin _]. apply Hnotin. now left.
Qed.

(** C5 (amended): when the library reports the installed languages [L],
    [get_available_language_pairs] first refreshes (one enumeration call, the
    stored list replaced) and returns exactly the flattened edges of [L] as
    (from_code, from_name, to_code, to_name) tuples, in the order of the
    report and once per reported edge: no entry is absent from the report,
    none is added, and there is no duplicate when the report has none. *)
Theorem available_pairs_are_reported_edges (lib : Library) (L : list LanguageEntry)
    (w : World) :
  reports lib L ->
  fst (get_available_language_pairs lib w) = Normal (edges L)
  /\ lib_calls (snd (get_available_language_pairs lib w))
     = lib_calls w ++ [CallGetInstalledLanguages]
  /\ installed_packages (session (snd (get_available_language_pairs lib w)))
     = map info_of (edges L)
  /\ ui (snd (get_available_language_pairs lib w)) = ui w
  /\ (NoDup (edges L) <->
      exists pairs, fst (get_available_language_pairs lib w) = Normal pairs
                    /\ NoDup pairs).
Proof.
  unfold reports. intros Hrep.
  assert (Hflat : flatten_report (Py.of_list (map language_of L))
                  = (map info_of (edges L), None)).
  { unfold flatten_report. cbn [Py.of_list Py.yielded Py.stops_with].
    now rewrite flatten_languages_clean. }
  assert (Hrun : get_available_language_pairs lib w
                 = (Normal (edges L),
                    add_ui (set_installed (add_call w CallGetInstalledLanguages)
                                          (map info_of (edges L))) [])).
  { rewrite get_available_language_pairs_run.
    rewrite (@refresh_installed_ok lib w _ Hrep) by now rewrite Hflat.
    rewrite Hflat. cbn [fst snd add_ui set_installed mk_world session
                        installed_packages].
    rewrite map_map. rewrite (map_ext _ (fun p => p) pair_of_info_of), map_id.
    reflexivity. }
  rewrite Hrun. cbn [fst snd add_ui set_installed mk_world session add_call
                     installed_packages lib_calls ui].
  rewrite app_nil_r. repeat split; try reflexivity.
  - intros Hnd. exists (edges L). split; [reflexivity | assumption].
  - intros (pairs & [= <-] & Hnd). assumption.
Qed.

Lemma available_pairs_are_reported_edges_witness :
  reports Ex.lib_en_es [Ex.english]
  /\ fst (get_available_language_pairs Ex.lib_en_es Ex.w0)
     = Normal [(Ex.en, Ex.English, Ex.es, Ex.Spanish)].
Proof.
  split; [reflexivity|].
  exact (proj1 (@available_pairs_are_reported_edges Ex.lib_en_es [Ex.english] Ex.w0
                  eq_refl)).
Defined.

(* ===================================================================== *)
(** ** [translate_text] and the translation step *)
(* ===================================================================== *)

Lemma translate_text_run (lib : Library) (text from_code to_code : Py.str) (w : World) :
  translate_text lib text from_code to_code w =
  match translate lib text from_code to_code with
  | Py.Returned translated_text =>
      (Normal translated_text, add_call w (CallTranslate text from_code to_code))
  | Py.Raised e =>
      (Normal [],
       add_ui (add_call w (CallTranslate text from_code to_code))
              [translation_message e])
  end.
Proof.
  unfold translate_text, try_except, bind. cbn [log_call].
  destruct (translate lib text from_code to_code); reflexivity.
Qed.

Lemma keeps_calls_bind {A B} (m : M A) (k : A -> M B) :
  keeps_calls m -> (forall a, keeps_calls (k a)) -> keeps_calls (bind m k).
Proof.
  intros Hm Hk w. unfold bind. specialize (Hm w).
  destruct (m w) as [[a| |] w']; cbn [snd] in *; [|assumption|assumption].
  rewrite Hk. assumption.
Qed.

Lemma keeps_calls_ret {A} (a : A) : keeps_calls (ret a).
Proof. intros w. reflexivity. Qed.

Lemma keeps_calls_emit (ev : UiEvent) : keeps_calls (emit ev).
Proof. intros w. reflexivity. Qed.

Lemma keeps_calls_py_index {A} (l : list A) (i : option nat) :
  keeps_calls (py_index l i).
Proof.
  intros w. unfold py_index. destruct i as [n|]; [|reflexivity].
  destruct (nth_error l n); reflexivity.
Qed.

Lemma keeps_calls_add_to_history (r : TranslationRecord) :
  keeps_calls (add_to_history r).
Proof. intros w. reflexivity. Qed.

Lemma add_to_history_run (r : TranslationRecord) (w : World) :
  add_to_history r w
  = (Normal tt, set_history w (firstn 10 (r :: translation_history (session w)))).
Proof. reflexivity. Qed.

Create HintDb calls.

#[local] Hint Resolve keeps_calls_bind keeps_calls_ret keeps_calls_emit
  keeps_calls_py_index keeps_calls_add_to_history : calls.

(** A translation call that raises or gives the empty string ends the
    translation step without any change to the session state. *)
Lemma perform_translation_without_result (lib : Library) (now : Py.str)
    (available_pairs : list Pair) (button : bool) (text : Py.str)
    (selected_from_idx selected_to_idx : option nat)
    (from_code to_code : Py.str) (w : World) :
  (exists e, translate lib text from_code to_code = Py.Raised e)
  \/ translate lib text from_code to_code = Py.Returned [] ->
  exists w',
    perform_translation lib now available_pairs button text
      selected_from_idx selected_to_idx from_code to_code w = (Normal tt, w')
    /\ session w' = session w.
Proof.
  intros H. unfold perform_translation.
  destruct (button && Py.truthy (Py.strip text)).
  - unfold bind at 1. rewrite translate_text_run.
    destruct H as [[e ->] | ->]; eexists; split; reflexivity.
  - destruct (button && negb (Py.truthy (Py.strip text)));
      eexists; split; reflexivity.
Qed.

(** C2: for every [from_code] and [to_code], a translation request whose
    text is empty or whitespace-only ends with the error
    "Please enter some text to translate." and nothing else: the library's
    translation call is not made, and the session state is as before. *)
Theorem blank_input_is_rejected (lib : Library) (now : Py.str)
    (available_pairs : list Pair) (text : Py.str)
    (selected_from_idx selected_to_idx : option nat)
    (from_code to_code : Py.str) (w : World) :
  blank text = true ->
  perform_translation lib now available_pairs true text
    selected_from_idx selected_to_idx from_code to_code w
  = (Normal tt, add_ui w [empty_input_message])
  /\ lib_calls (snd (perform_translation lib now available_pairs true text
                       selected_from_idx selected_to_idx from_code to_code w))
     = lib_calls w
  /\ session (snd (perform_translation lib now available_pairs true text
                     selected_from_idx selected_to_idx from_code to_code w))
     = session w.
Proof.
  intros Hb. unfold perform_translation.
  rewrite truthy_strip, Hb. cbn [negb andb]. repeat split; reflexivity.
Qed.

Lemma blank_input_is_rejected_witness :
  blank (Py.lit "   ") = true
  /\ perform_translation Ex.lib_en_es (Ex.stamp 0) [pair_of Ex.en_es] true
       (Py.lit "   ") (Some 0) (Some 0) Ex.en Ex.es Ex.w0
     = (Normal tt, add_ui Ex.w0 [empty_input_message]).
Proof.
  split; [reflexivity|].
  exact (proj1 (@blank_input_is_rejected Ex.lib_en_es (Ex.stamp 0) [pair_of Ex.en_es]
                  (Py.lit "   ") (Some 0) (Some 0) Ex.en Ex.es Ex.w0 eq_refl)).
Defined.

(** [translate_text] itself has no such guard: called on a blank text it
    hands the text to the library. The guard is the condition of line 347. *)
Lemma translate_text_has_no_guard (lib : Library) (text from_code to_code : Py.str)
    (w : World) :
  lib_calls (snd (translate_text lib text from_code to_code w))
  = lib_calls w ++ [CallTranslate text from_code to_code].
Proof.
  rewrite translate_text_run.
  destruct (translate lib text from_code to_code); reflexivity.
Qed.

(** C4: whatever the text and the language pair, when the library's
    translation call fails for them the translation step leaves the session
    state, and so the history, exactly as it was. *)
Theorem failed_translation_keeps_history (lib : Library) (now : Py.str)
    (available_pairs : list Pair) (button : bool) (text : Py.str)
    (selected_from_idx selected_to_idx : option nat)
    (from_code to_code : Py.str) (e : Py.Exception) (w : World) :
  translate lib text from_code to_code = Py.Raised e ->
  translation_history
    (session (snd (perform_translation lib now available_pairs button text
                     selected_from_idx selected_to_idx from_code to_code w)))
  = translation_history (session w)
  /\ session (snd (perform_translation lib now available_pairs button text
                     selected_from_idx selected_to_idx from_code to_code w))
     = session w
  /\ fst (perform_translation lib now available_pairs button text
            selected_from_idx selected_to_idx from_code to_code w) = Normal tt.
Proof.
  intros Hfail.
  destruct (@perform_translation_without_result lib now available_pairs button text
              selected_from_idx selected_to_idx from_code to_code w
              (or_introl (ex_intro _ e Hfail))) as (w' & -> & Hs).
  cbn [fst snd]. rewrite Hs. repeat split; reflexivity.
Qed.

Lemma failed_translation_keeps_history_witness :
  translate Ex.lib_translate_fails (Py.lit "Hello") Ex.en Ex.es = Py.Raised Ex.boom
  /\ translation_history
       (session (snd (perform_translation Ex.lib_translate_fails (Ex.stamp 0)
                        [pair_of Ex.en_es] true (Py.lit "Hello") (Some 0) (Some 0)
                        Ex.en Ex.es Ex.w0)))
     = translation_history (session Ex.w0).
Proof.
  split; [reflexivity|].
  exact (proj1 (@failed_translation_keeps_history Ex.lib_translate_fails (Ex.stamp 0)
                  [pair_of Ex.en_es] true (Py.lit "Hello") (Some 0) (Some 0)
                  Ex.en Ex.es Ex.boom Ex.w0 eq_refl)).
Defined.

(** C8: for every text that is not blank, the translation step makes exactly
    one call to the library's translation function, and the text of that
    call is the input itself, code point for code point. *)
Theorem translation_passes_exact_text (lib : Library) (now : Py.str)
    (available_pairs : list Pair) (text : Py.str)
    (selected_from_idx selected_to_idx : option nat)
    (from_code to_code : Py.str) (w : World) :
  blank text = false ->
  lib_calls (snd (perform_translation lib now available_pairs true text
                    selected_from_idx selected_to_idx from_code to_code w))
  = lib_calls w ++ [CallTranslate text from_code to_code].
Proof.
  intros Hb. unfold perform_translation.
  rewrite truthy_strip, Hb. cbn [negb andb].
  unfold bind at 1. rewrite translate_text_run.
  destruct (translate lib text from_code to_code) as [translated_text|e].
  - destruct (Py.truthy translated_text); [|reflexivity].
    match goal with
    | |- lib_calls (snd (?m ?w0)) = _ =>
        assert (Hk : keeps_calls m)
    end.
    { unfold st_subheader, st_markdown, st_code. auto 20 with calls. }
    rewrite Hk. reflexivity.
  - reflexivity.
Qed.

Lemma translation_passes_exact_text_witness :
  blank (Py.lit "  Hello ") = false
  /\ lib_calls (snd (perform_translation Ex.lib_en_es (Ex.stamp 0)
                       [pair_of Ex.en_es] true (Py.lit "  Hello ") (Some 0) (Some 0)
                       Ex.en Ex.es Ex.w0))
     = [CallTranslate (Py.lit "  Hello ") Ex.en Ex.es].
Proof.
  split; [reflexivity|].
  exact (@translation_passes_exact_text Ex.lib_en_es (Ex.stamp 0) [pair_of Ex.en_es]
           (Py.lit "  Hello ") (Some 0) (Some 0) Ex.en Ex.es Ex.w0 eq_refl).
Defined.

(** C9: when the library's translation call raises, [translate_text] catches
    the exception and returns the empty string, the value it also returns
    when the library's result is the empty string; in both cases the
    translation step adds no record to the history. *)
Theorem failure_looks_like_empty_result (lib : Library) (now : Py.str)
    (text from_code to_code : Py.str) (w : World) :
  (exists e, translate lib text from_code to_code = Py.Raised e)
  \/ translate lib text from_code to_code = Py.Returned [] ->
  fst (translate_text lib text from_code to_code w) = Normal []
  /\ forall available_pairs button selected_from_idx selected_to_idx,
       translation_history
         (session (snd (perform_translation lib now available_pairs button text
                          selected_from_idx selected_to_idx from_code to_code w)))
       = translation_history (session w).
Proof.
  intros H. split.
  - rewrite translate_text_run. destruct H as [[e ->] | ->]; reflexivity.
  - intros available_pairs button si ti.
    destruct (@perform_translation_without_result lib now available_pairs button text
                si ti from_code to_code w H) as (w' & -> & Hs).
    cbn [snd]. now rewrite Hs.
Qed.

Lemma failure_looks_like_empty_result_witness :
  ((exists e, translate Ex.lib_translate_fails (Py.lit "Hello") Ex.en Ex.es
              = Py.Raised e)
   \/ translate Ex.lib_translate_fails (Py.lit "Hello") Ex.en Ex.es = Py.Returned [])
  /\ fst (translate_text Ex.lib_translate_fails (Py.lit "Hello") Ex.en Ex.es Ex.w0)
     = Normal [].
Proof.
  split; [left; exists Ex.boom; reflexivity|].
  exact (proj1 (@failure_looks_like_empty_result Ex.lib_translate_fails (Ex.stamp 0)
                  (Py.lit "Hello") Ex.en Ex.es Ex.w0
                  (or_introl (ex_intro _ Ex.boom eq_refl)))).
Defined.

(* ===================================================================== *)
(** ** The history *)
(* ===================================================================== *)

Lemma firstn_app_firstn {A} (n : nat) (a b : list A) :
  firstn n (a ++ firstn n b) = firstn n (a ++ b).
Proof.
  rewrite !firstn_app, firstn_firstn.
  replace (Nat.min (n - List.length a) n) with (n - List.length a) by lia.
  reflexivity.
Qed.

(** Recording [recs] one after the other, oldest first. *)
Lemma record_all_run (recs : list TranslationRecord) (w : World) :
  fst (for_list recs add_to_history w) = Normal tt
  /\ translation_history (session (snd (for_list recs add_to_history w)))
     = match recs with
       | [] => translation_history (session w)
       | _ :: _ => firstn 10 (rev recs ++ translation_history (session w))
       end.
Proof.
  revert w. induction recs as [|r recs IH]; intros w.
  - split; reflexivity.
  - cbn [for_list]. unfold bind. rewrite add_to_history_run.
    destruct (IH (set_history w (firstn 10 (r :: translation_history (session w)))))
      as [IH1 IH2].
    split; [exact IH1|]. rewrite IH2.
    cbn [set_history mk_world session translation_history].
    destruct recs as [|r' recs]; [reflexivity|].
    rewrite firstn_app_firstn.
    change (rev (r :: r' :: recs)) with (rev (r' :: recs) ++ [r]).
    rewrite <- app_assoc. reflexivity.
Qed.

(** C3: after more than ten records have been added, whatever the history
    was before, it holds exactly ten records: the ten recorded last, the
    most recent first. *)
Theorem history_keeps_ten_most_recent (recs : list TranslationRecord) (w : World) :
  10 < List.length recs ->
  fst (for_list recs add_to_history w) = Normal tt
  /\ translation_history (session (snd (for_list recs add_to_history w)))
     = firstn 10 (rev recs)
  /\ List.length
       (translation_history (session (snd (for_list recs add_to_history w)))) = 10
  /\ forall i d, i < 10 ->
       nth i (translation_history (session (snd (for_list recs add_to_history w)))) d
       = nth (List.length recs - 1 - i) recs d.
Proof.
  intros Hlen. destruct (record_all_run recs w) as [H1 H2].
  assert (Hh : translation_history (session (snd (for_list recs add_to_history w)))
               = firstn 10 (rev recs)).
  { rewrite H2. destruct recs as [|r recs]; [simpl in Hlen; lia|].
    rewrite firstn_app, length_rev.
    replace (10 - List.length (r :: recs)) with 0 by lia.
    cbn [firstn]. apply app_nil_r. }
  rewrite Hh. repeat split.
  - exact H1.
  - rewrite length_firstn, length_rev. lia.
  - intros i d Hi.
    assert (Hl : List.length (firstn 10 (rev recs)) = 10)
      by (rewrite length_firstn, length_rev; lia).
    rewrite <- (app_nth1 (firstn 10 (rev recs)) (skipn 10 (rev recs)) d)
      by (rewrite Hl; exact Hi).
    rewrite firstn_skipn, rev_nth by lia.
    f_equal. lia.
Qed.

Lemma history_keeps_ten_most_recent_witness :
  10 < List.length Ex.eleven
  /\ translation_history (session (snd (for_list Ex.eleven add_to_history Ex.w0)))
     = firstn 10 (rev Ex.eleven).
Proof.
  split; [cbn; lia|].
  assert (H : 10 < List.length Ex.eleven) by (cbn; lia).
  exact (proj1 (proj2 (@history_keeps_ten_most_recent Ex.eleven Ex.w0 H))).
Defined.

(* ===================================================================== *)
(** ** The language select boxes *)
(* ===================================================================== *)

Lemma truthy_map {A B} (f : A -> B) (l : list A) :
  Py.truthy (map f l) = Py.truthy l.
Proof. destruct l; reflexivity. Qed.

Lemma to_languages_In (available_pairs : list Pair) (selected_from_code : Py.str)
    (t : Py.str * Py.str) :
  In t (to_languages available_pairs selected_from_code)
  <-> exists from_name, In (selected_from_code, from_name, fst t, snd t) available_pairs.
Proof.
  unfold to_languages. rewrite sorted_In, in_map_iff. split.
  - intros ([[[fc fn] tc] tn] & <- & Hin). apply filter_In in Hin as [Hin Heq].
    cbn [pair0 pair2 pair3 fst snd] in *. apply str_eqb_eq in Heq. subst fc.
    exists fn. exact Hin.
  - intros (fn & Hin). exists (selected_from_code, fn, fst t, snd t). split.
    + destruct t; reflexivity.
    + apply filter_In. split; [exact Hin|].
      cbn [pair0 fst]. now apply str_eqb_eq.
Qed.

Lemma ui_py_index {A} (l : list A) (i : option nat) (w : World) :
  ui (snd (py_index l i w)) = ui w.
Proof.
  unfold py_index. destruct i as [n|]; [|reflexivity].
  destruct (nth_error l n); reflexivity.
Qed.

(** What the target select box renders. *)
Lemma select_target_ui (available_pairs : list Pair) (selected_from_code : Py.str)
    (choice : nat) (w : World) :
  ui (snd (select_target available_pairs selected_from_code choice w))
  = ui w ++ [UiMarkdown (Py.lit "**To Language:**");
             if Py.truthy (to_languages available_pairs selected_from_code)
             then UiSelectbox (Py.lit "Target language:")
                    (map option_label (to_languages available_pairs selected_from_code))
             else no_targets_message].
Proof.
  unfold select_target. rewrite truthy_map.
  destruct (to_languages available_pairs selected_from_code) as [|t0 ts] eqn:E.
  - cbn. rewrite <- app_assoc. reflexivity.
  - cbn [Py.truthy]. unfold bind at 1. cbn [st_markdown emit].
    unfold bind at 1. unfold st_selectbox at 1. unfold bind at 1. cbn [emit ret map].
    unfold bind.
    match goal with
    | |- ui (snd (let (o, w') := py_index ?l ?i ?w0 in _)) = _ =>
        pose proof (ui_py_index l i w0) as Hui;
        destruct (py_index l i w0) as [[a| |] w1]
    end; cbn [snd ret ui] in *; rewrite Hui; cbn [ui];
      rewrite <- app_assoc; reflexivity.
Qed.

(** C6: for every selected source code and every list of installed pairs,
    the targets offered are exactly the (to_code, to_name) of the pairs whose
    from_code is the selected one; the select box is filled from them, as a
    function of the pairs and the selection alone, whatever the session
    holds. *)
Theorem targets_are_filtered_by_source (available_pairs : list Pair)
    (selected_from_code : Py.str) :
  (forall t,
      In t (to_languages available_pairs selected_from_code)
      <-> exists from_name,
            In (selected_from_code, from_name, fst t, snd t) available_pairs)
  /\ forall choice w,
       ui (snd (select_target available_pairs selected_from_code choice w))
       = ui w ++ [UiMarkdown (Py.lit "**To Language:**");
                  if Py.truthy (to_languages available_pairs selected_from_code)
                  then UiSelectbox (Py.lit "Target language:")
                         (map option_label
                              (to_languages available_pairs selected_from_code))
                  else no_targets_message].
Proof.
  split.
  - intros t. apply to_languages_In.
  - intros choice w. apply select_target_ui.
Qed.

(** C7: when no installed pair has the selected source code, the target
    selection renders the error "No target languages available for the
    selected source language." and ends the run of [main] (the [return] of
    line 320): no select box is shown and no target is chosen. *)
Theorem no_targets_is_an_error (available_pairs : list Pair)
    (selected_from_code : Py.str) (choice : nat) (w : World) :
  (forall p, In p available_pairs -> pair0 p <> selected_from_code) ->
  select_target available_pairs selected_from_code choice w
  = (Normal None,
     add_ui (add_ui w [UiMarkdown (Py.lit "**To Language:**")]) [no_targets_message]).
Proof.
  intros Hnone.
  assert (E : to_languages available_pairs selected_from_code = []).
  { destruct (to_languages available_pairs selected_from_code) as [|t ts] eqn:E;
      [reflexivity|].
    assert (Hin : In t (to_languages available_pairs selected_from_code))
      by (rewrite E; now left).
    apply to_languages_In in Hin as (fn & Hin).
    exfalso. exact (Hnone _ Hin eq_refl). }
  unfold select_target. rewrite E. reflexivity.
Qed.

Lemma no_targets_is_an_error_witness :
  (forall p, In p [pair_of Ex.en_es] -> pair0 p <> Ex.fr)
  /\ fst (select_target [pair_of Ex.en_es] Ex.fr 0 Ex.w0) = Normal None.
Proof.
  assert (H : forall p, In p [pair_of Ex.en_es] -> pair0 p <> Ex.fr).
  { intros p [<-|[]]. discriminate. }
  split; [exact H|].
  exact (f_equal fst (@no_targets_is_an_error [pair_of Ex.en_es] Ex.fr 0 Ex.w0 H)).
Defined.

Lemma from_languages_In (available_pairs : list Pair) (c n : Py.str) :
  In (c, n) (from_languages available_pairs)
  <-> exists to_code to_name, In (c, n, to_code, to_name) available_pairs.
Proof.
  unfold from_languages. rewrite sorted_In, list_set_In, in_map_iff. split.
  - intros ([[[fc fn] tc] tn] & [= <- <-] & Hin). eauto.
  - intros (tc & tn & Hin). exists (c, n, tc, tn). split; [reflexivity | exact Hin].
Qed.

Lemma select_source_ui (available_pairs : list Pair) (choice : nat) (w : World) :
  ui (snd (select_source available_pairs choice w))
  = ui w ++ [UiMarkdown (Py.lit "**From Language:**");
             UiSelectbox (Py.lit "Source language:")
               (map option_label (from_languages available_pairs))].
Proof.
  unfold select_source. unfold bind at 1. cbn [st_markdown emit].
  unfold bind at 1. unfold st_selectbox at 1. unfold bind at 1. cbn [emit ret].
  unfold bind.
  match goal with
  | |- ui (snd (let (o, w') := py_index ?l ?i ?w0 in _)) = _ =>
      pose proof (ui_py_index l i w0) as Hui;
      destruct (py_index l i w0) as [[a| |] w1]
  end; cbn [snd ret ui] in *; rewrite Hui; cbn [ui];
    rewrite <- app_assoc; reflexivity.
Qed.

(** C10: the source languages offered are the (from_code, from_name) of
    the installed pairs, each one once and in strictly ascending order,
    however often and in whatever order the pairs list a source; the
    source select box shows them, formatted "name (code)", in that order. *)
Theorem source_options_sorted_distinct (available_pairs : list Pair) :
  StronglySorted pair_lt (from_languages available_pairs)
  /\ NoDup (from_languages available_pairs)
  /\ (forall c n,
         In (c, n) (from_languages available_pairs)
         <-> exists to_code to_name, In (c, n, to_code, to_name) available_pairs)
  /\ forall choice w,
       ui (snd (select_source available_pairs choice w))
       = ui w ++ [UiMarkdown (Py.lit "**From Language:**");
                  UiSelectbox (Py.lit "Source language:")
                    (map option_label (from_languages available_pairs))].
Proof.
  assert (Hs : StronglySorted pair_lt (from_languages available_pairs))
    by (apply sorted_strictly_sorted, list_set_NoDup).
  repeat split.
  - exact Hs.
  - now apply strictly_sorted_NoDup.
  - now apply from_languages_In.
  - now apply from_languages_In.
  - now apply select_source_ui.
Qed.

(** A source taken from the source options always has a target, so within
    one run of [main] the branch of line 319 is not taken. *)
Lemma offered_source_has_target (available_pairs : list Pair) (c n : Py.str) :
  In (c, n) (from_languages available_pairs) ->
  to_languages available_pairs c <> [].
Proof.
  intros Hin Hnil. apply from_languages_In in Hin as (tc & tn & Hin).
  assert (H : In (tc, tn) (to_languages available_pairs c))
    by (apply to_languages_In; exists n; exact Hin).
  rewrite Hnil in H. exact H.
Qed.

(* ===================================================================== *)
(** ** Runs of the translation interface *)
(* ===================================================================== *)

(** English to Spanish installed, "Hello" entered, Translate pressed: one
    enumeration call, one translation call with the text as entered, and one
    record in front of the history. *)
Example main_translates_hello :
  let w := snd (main_translation_interface Ex.lib_en_es (Ex.stamp 7)
                  {| from_lang_choice := 0; to_lang_choice := 0;
                     input_text := Py.lit "Hello";
                     translate_button := true; clear_button := false |}
                  Ex.w0) in
  lib_calls w = [CallGetInstalledLanguages; CallTranslate (Py.lit "Hello") Ex.en Ex.es]
  /\ translation_history (session w)
     = [{| timestamp := Ex.stamp 7; from_lang := Ex.English;
           to_lang_name := Ex.Spanish; original := Py.lit "Hello";
           translated := Py.lit "Hello" |}]
  /\ In (UiSelectbox (Py.lit "Target language:") [Py.lit "Spanish (es)"]) (ui w).
Proof. vm_compute. repeat split. tauto. Qed.

(** The same with a blank text: the error is shown and no translation call
    is made. *)
Example main_rejects_blank :
  let w := snd (main_translation_interface Ex.lib_en_es (Ex.stamp 7)
                  {| from_lang_choice := 0; to_lang_choice := 0;
                     input_text := Py.lit "   ";
                     translate_button := true; clear_button := false |}
                  Ex.w0) in
  lib_calls w = [CallGetInstalledLanguages]
  /\ translation_history (session w) = []
  /\ In empty_input_message (ui w).
Proof. vm_compute. repeat split. tauto. Qed.

(** Nothing installed: the warning and the hint are shown, and the run ends. *)
Example main_without_packages :
  main_translation_interface
    {| get_installed_languages := Py.Returned (Py.of_list []);
       translate := Ex.echo |}
    (Ex.stamp 7)
    {| from_lang_choice := 0; to_lang_choice := 0; input_text := Py.lit "Hello";
       translate_button := true; clear_button := false |}
    (mk_world [] [] [] [] [] [])
  = (Normal tt,
     mk_world [] [] [] []
       [UiWarning ([9888%N; 65039%N]
                   ++ Py.lit " No translation packages installed! Please install some packages from the sidebar.");
        UiInfo getting_started]
       [CallGetInstalledLanguages]).
Proof. reflexivity. Qed.

(** The enumeration call raises: the pairs stored before are still listed,
    and the error is shown. *)
Example stale_pairs_when_library_is_down :
  fst (get_available_language_pairs Ex.lib_down Ex.w0)
  = Normal [(Ex.en, Ex.English, Ex.es, Ex.Spanish)]
  /\ ui (snd (get_available_language_pairs Ex.lib_down Ex.w0))
     = [refresh_message Ex.boom].
Proof. split; reflexivity. Qed.

(* ===================================================================== *)
(** ** Further properties of the refresh *)
(* ===================================================================== *)

(** X1: A refresh replaces the stored list, it does not add to it: refreshing
    twice against the same library state stores what one refresh stores. *)
Theorem refresh_twice_is_refresh_once (lib : Library) (w : World) :
  installed_packages
    (session (snd (refresh_installed_packages lib
                     (snd (refresh_installed_packages lib w)))))
  = installed_packages (session (snd (refresh_installed_packages lib w))).
Proof.
  rewrite !refresh_installed_packages_run.
  destruct (get_installed_languages lib) as [it|e]; reflexivity.
Qed.

(** X2: When the enumeration call raises, [get_available_language_pairs] still
    returns normally: it gives the pairs stored before the call, and the
    error is shown. *)
Theorem stale_pairs_on_enumeration_error (lib : Library) (w : World)
    (e : Py.Exception) :
  get_installed_languages lib = Py.Raised e ->
  get_available_language_pairs lib w
  = (Normal (map pair_of (installed_packages (session w))),
     add_ui (add_call w CallGetInstalledLanguages) [refresh_message e]).
Proof.
  intros H. rewrite get_available_language_pairs_run.
  rewrite refresh_installed_packages_run, H. reflexivity.
Qed.

Lemma stale_pairs_on_enumeration_error_witness :
  get_installed_languages Ex.lib_down = Py.Raised Ex.boom
  /\ fst (get_available_language_pairs Ex.lib_down Ex.w0)
     = Normal [(Ex.en, Ex.English, Ex.es, Ex.Spanish)].
Proof.
  split; [reflexivity|].
  exact (f_equal fst (@stale_pairs_on_enumeration_error Ex.lib_down Ex.w0 Ex.boom
                        eq_refl)).
Defined.

(** The pairs returned are always the pairs stored when the function
    returns, whatever the library did. *)
Theorem available_pairs_mirror_session (lib : Library) (w : World) :
  exists w',
    get_available_language_pairs lib w
    = (Normal (map pair_of (installed_packages (session w'))), w')
    /\ translation_history (session w') = translation_history (session w)
    /\ available_packages (session w') = available_packages (session w)
    /\ lib_calls w' = lib_calls w ++ [CallGetInstalledLanguages].
Proof.
  exists (snd (refresh_installed_packages lib w)).
  split; [apply get_available_language_pairs_run|].
  rewrite refresh_installed_packages_run.
  destruct (get_installed_languages lib); repeat split; reflexivity.
Qed.

(* ===================================================================== *)
(** ** Further properties of the option lists *)
(* ===================================================================== *)

Lemma pair_leb_total (p q : Py.str * Py.str) :
  Py.pair_leb p q = false -> Py.pair_leb q p = true.
Proof.
  intros H. apply pair_leb_false_lt in H. unfold Py.pair_leb, pair_lt in *.
  now rewrite H.
Qed.

Lemma pair_le_trans (p q r : Py.str * Py.str) :
  pair_le p q -> pair_le q r -> pair_le p r.
Proof.
  unfold pair_le. intros H1 H2.
  destruct (Py.pair_leb p r) eqn:E; [reflexivity|].
  apply pair_leb_false_lt in E.
  assert (Hpq : p = q \/ pair_lt p q).
  { unfold Py.pair_leb in H1. unfold pair_lt.
    destruct (Py.pair_compare p q) eqn:C; try discriminate; auto.
    left. now apply pair_compare_eq. }
  assert (Hqr : q = r \/ pair_lt q r).
  { unfold Py.pair_leb in H2. unfold pair_lt.
    destruct (Py.pair_compare q r) eqn:C; try discriminate; auto.
    left. now apply pair_compare_eq. }
  exfalso. destruct Hpq as [->|Hpq], Hqr as [->|Hqr].
  - exact (pair_lt_irrefl E).
  - exact (pair_lt_irrefl (pair_lt_trans Hqr E)).
  - exact (pair_lt_irrefl (pair_lt_trans Hpq E)).
  - exact (pair_lt_irrefl (pair_lt_trans (pair_lt_trans Hpq Hqr) E)).
Qed.

Lemma insert_Permutation (x : Py.str * Py.str) (l : list (Py.str * Py.str)) :
  Permutation (Py.insert x l) (x :: l).
Proof.
  induction l as [|y l IH]; simpl; [reflexivity|].
  destruct (Py.pair_leb x y); [reflexivity|].
  rewrite IH. apply perm_swap.
Qed.

Lemma sorted_Permutation (l : list (Py.str * Py.str)) :
  Permutation (Py.sorted l) l.
Proof.
  induction l as [|x l IH]; simpl; [reflexivity|].
  rewrite insert_Permutation. now constructor.
Qed.

Lemma insert_ascending (x : Py.str * Py.str) (l : list (Py.str * Py.str)) :
  StronglySorted pair_le l -> StronglySorted pair_le (Py.insert x l).
Proof.
  induction l as [|y l IH]; simpl; intros Hs.
  - repeat constructor.
  - apply StronglySorted_inv in Hs as [Hs Hy].
    destruct (Py.pair_leb x y) eqn:E.
    + constructor; [constructor; assumption|].
      constructor; [exact E|].
      eapply Forall_impl; [|exact Hy]. intros a Ha. eapply pair_le_trans; eauto.
    + constructor; [now apply IH|].
      apply Forall_forall. intros a Ha. apply insert_In in Ha as [->|Ha].
      * now apply pair_leb_total.
      * rewrite Forall_forall in Hy. auto.
Qed.

Lemma sorted_ascending (l : list (Py.str * Py.str)) :
  StronglySorted pair_le (Py.sorted l).
Proof.
  induction l as [|x l IH]; simpl; [constructor | now apply insert_ascending].
Qed.

(** X3: The target options are in ascending order and are a rearrangement of
    the targets of the pairs with the selected source: nothing is merged, so
    a target that the installed list holds twice for that source is offered
    twice. *)
Theorem targets_sorted_with_repeats (available_pairs : list Pair)
    (selected_from_code : Py.str) :
  StronglySorted pair_le (to_languages available_pairs selected_from_code)
  /\ Permutation
       (to_languages available_pairs selected_from_code)
       (map (fun pair => (pair2 pair, pair3 pair))
            (filter (fun pair => Py.str_eqb (pair0 pair) selected_from_code)
                    available_pairs))
  /\ List.length (to_languages available_pairs selected_from_code)
     = List.length (filter (fun pair => Py.str_eqb (pair0 pair) selected_from_code)
                           available_pairs).
Proof.
  unfold to_languages. split; [apply sorted_ascending|].
  split; [apply sorted_Permutation|].
  now rewrite sorted_length, length_map.
Qed.

(** X4: The source options do not depend on the order in which Python
    enumerates the set of line 293: every duplicate-free enumeration of the
    (from_code, from_name) tuples sorts to the same list. *)
Theorem source_options_ignore_set_order (available_pairs : list Pair)
    (enumeration : list (Py.str * Py.str)) :
  NoDup enumeration ->
  (forall x, In x enumeration
             <-> In x (map (fun pair => (pair0 pair, pair1 pair)) available_pairs)) ->
  Py.sorted enumeration = from_languages available_pairs.
Proof.
  intros Hnd Hin. unfold from_languages. now apply sorted_of_set_unique.
Qed.

Lemma source_options_ignore_set_order_witness :
  Py.sorted [(Ex.es, Ex.Spanish); (Ex.en, Ex.English)]
  = from_languages [(Ex.en, Ex.English, Ex.es, Ex.Spanish);
                    (Ex.es, Ex.Spanish, Ex.fr, Ex.French);
                    (Ex.en, Ex.English, Ex.fr, Ex.French)].
Proof.
  apply source_options_ignore_set_order.
  - repeat constructor; simpl; intros H;
      repeat (destruct H as [H|H]; [discriminate H|]); exact H.
  - intros x. simpl. split; intros H;
      repeat (destruct H as [H|H]; [subst x; auto|]); destruct H.
Defined.

(* ===================================================================== *)
(** ** Whole runs of the translation interface *)
(* ===================================================================== *)

Lemma bind_normal {A B} (m : M A) (k : A -> M B) (w w' : World) (a : A) :
  m w = (Normal a, w') -> bind m k w = k a w'.
Proof. intros H. unfold bind. now rewrite H. Qed.

Lemma selected_index_lt (n choice : nat) : 0 < n -> selected_index n choice < n.
Proof.
  unfold selected_index. intros Hn.
  destruct (choice <? n) eqn:E; [now apply Nat.ltb_lt | exact Hn].
Qed.

Lemma st_selectbox_run (label : Py.str) (options : list Py.str) (choice : nat)
    (w : World) :
  options <> [] ->
  st_selectbox label options choice w
  = (Normal (Some (selected_index (List.length options) choice)),
     add_ui w [UiSelectbox label options]).
Proof.
  intros Hne. destruct options as [|o options]; [contradiction|]. reflexivity.
Qed.

Lemma py_index_run {A} (l : list A) (n : nat) (a : A) (w : World) :
  nth_error l n = Some a -> py_index l (Some n) w = (Normal a, w).
Proof. intros H. unfold py_index. now rewrite H. Qed.

Lemma nth_error_selected {A} (l : list A) (choice : nat) :
  l <> [] -> exists a, nth_error l (selected_index (List.length l) choice) = Some a.
Proof.
  intros Hne.
  destruct (nth_error l (selected_index (List.length l) choice)) as [a|] eqn:E;
    [now exists a|].
  apply nth_error_None in E.
  assert (0 < List.length l) by (destruct l; [contradiction | simpl; lia]).
  pose proof (@selected_index_lt (List.length l) choice H). lia.
Qed.

Lemma from_languages_nonempty (available_pairs : list Pair) :
  available_pairs <> [] -> from_languages available_pairs <> [].
Proof.
  destruct available_pairs as [|[[[fc fn] tc] tn] rest]; [contradiction|].
  intros _ Hnil.
  assert (H : In (fc, fn) (from_languages ((fc, fn, tc, tn) :: rest)))
    by (apply from_languages_In; exists tc, tn; now left).
  unfold Pair in *. rewrite Hnil in H. exact H.
Qed.

Lemma map_nonempty {A B} (f : A -> B) (l : list A) : l <> [] -> map f l <> [].
Proof. destruct l; [contradiction | discriminate]. Qed.

(** The source select box, when something is installed. *)
Lemma select_source_run (available_pairs : list Pair) (choice : nat) (w : World) :
  available_pairs <> [] ->
  exists from_code from_name,
    nth_error (from_languages available_pairs)
      (selected_index (List.length (from_languages available_pairs)) choice)
    = Some (from_code, from_name)
    /\ select_source available_pairs choice w
       = (Normal (Some (selected_index (List.length (from_languages available_pairs))
                                       choice),
                  from_code),
          add_ui (add_ui w [UiMarkdown (Py.lit "**From Language:**")])
                 [UiSelectbox (Py.lit "Source language:")
                    (map option_label (from_languages available_pairs))]).
Proof.
  intros Hne. apply from_languages_nonempty in Hne.
  destruct (@nth_error_selected _ (from_languages available_pairs) choice Hne)
    as [[fc fn] Hnth].
  exists fc, fn. split; [exact Hnth|].
  unfold select_source.
  erewrite bind_normal by reflexivity.
  erewrite bind_normal by (apply st_selectbox_run, map_nonempty, Hne).
  rewrite length_map.
  erewrite bind_normal by (apply py_index_run, Hnth).
  reflexivity.
Qed.

(** The target select box, when the selected source has a target. *)
Lemma select_target_run (available_pairs : list Pair) (selected_from_code : Py.str)
    (choice : nat) (w : World) :
  to_languages available_pairs selected_from_code <> [] ->
  exists to_code to_name,
    nth_error (to_languages available_pairs selected_from_code)
      (selected_index
         (List.length (to_languages available_pairs selected_from_code)) choice)
    = Some (to_code, to_name)
    /\ select_target available_pairs selected_from_code choice w
       = (Normal
            (Some (Some (selected_index
                           (List.length
                              (to_languages available_pairs selected_from_code))
                           choice),
                   to_code)),
          add_ui (add_ui w [UiMarkdown (Py.lit "**To Language:**")])
                 [UiSelectbox (Py.lit "Target language:")
                    (map option_label
                         (to_languages available_pairs selected_from_code))]).
Proof.
  intros Hne.
  destruct (@nth_error_selected _ (to_languages available_pairs selected_from_code)
              choice Hne) as [[tc tn] Hnth].
  exists tc, tn. split; [exact Hnth|].
  unfold select_target.
  erewrite bind_normal by reflexivity.
  rewrite truthy_map.
  destruct (to_languages available_pairs selected_from_code) as [|t0 ts] eqn:E;
    [contradiction|].
  cbn [Py.truthy].
  erewrite bind_normal by (apply st_selectbox_run; discriminate).
  rewrite length_map.
  erewrite bind_normal by (apply py_index_run, Hnth).
  reflexivity.
Qed.

(** The translation step, when the two indices are those of the select
    boxes. *)
Lemma perform_translation_run (lib : Library) (now : Py.str)
    (available_pairs : list Pair) (button : bool) (text : Py.str)
    (si ti : nat) (from_code to_code fc from_name tc to_name : Py.str) (w : World) :
  nth_error (from_languages available_pairs) si = Some (fc, from_name) ->
  nth_error (to_languages available_pairs from_code) ti = Some (tc, to_name) ->
  perform_translation lib now available_pairs button text (Some si) (Some ti)
    from_code to_code w
  = if button then
      if blank text then (Normal tt, add_ui w [empty_input_message])
      else
        match translate lib text from_code to_code with
        | Py.Raised e =>
            (Normal tt,
             add_ui (add_call w (CallTranslate text from_code to_code))
                    [translation_message e])
        | Py.Returned [] =>
            (Normal tt, add_call w (CallTranslate text from_code to_code))
        | Py.Returned (c :: rest) =>
            (Normal tt,
             after_success now text from_name to_name (c :: rest)
               (add_call w (CallTranslate text from_code to_code)))
        end
    else (Normal tt, w).
Proof.
  intros Hf Ht. unfold perform_translation. rewrite truthy_strip.
  destruct button; cbn [andb]; [|reflexivity].
  destruct (blank text); cbn [negb]; [reflexivity|].
  unfold bind at 1. rewrite translate_text_run.
  destruct (translate lib text from_code to_code) as [[|c rest]|e];
    [reflexivity| |reflexivity].
  cbn [Py.truthy].
  erewrite bind_normal by reflexivity.
  erewrite bind_normal by (apply py_index_run, Ht).
  erewrite bind_normal by reflexivity.
  erewrite bind_normal by (apply py_index_run, Hf).
  erewrite bind_normal by (apply py_index_run, Ht).
  erewrite bind_normal by reflexivity.
  cbn [snd]. unfold after_success, st_code, emit, add_ui, set_history, add_call.
  cbn. rewrite <- !app_assoc. reflexivity.
Qed.

Lemma add_ui_add_ui (w : World) (evs1 evs2 : list UiEvent) :
  add_ui (add_ui w evs1) evs2 = add_ui w (evs1 ++ evs2).
Proof. unfold add_ui. cbn. now rewrite app_assoc. Qed.

(** What a run of the translation interface comes to: either nothing is
    installed and the warning ends it, or a source and a target are selected
    from the option lists and the run goes on to the Clear button and the
    translation step. *)
Lemma main_translation_interface_run (lib : Library) (now : Py.str)
    (widgets : Widgets) (w : World) :
  let w1 := snd (refresh_installed_packages lib w) in
  let pairs := map pair_of (installed_packages (session w1)) in
  (pairs = []
   /\ main_translation_interface lib now widgets w
      = (Normal tt,
         add_ui w1
           [UiWarning ([9888%N; 65039%N]
                       ++ Py.lit " No translation packages installed! Please install some packages from the sidebar.");
            UiInfo getting_started]))
  \/ (pairs <> []
      /\ exists si ti fc fn tc tn evs,
        nth_error (from_languages pairs) si = Some (fc, fn)
        /\ nth_error (to_languages pairs fc) ti = Some (tc, tn)
        /\ main_translation_interface lib now widgets w
           = if clear_button widgets
             then (Rerun, set_input (add_ui w1 evs) [])
             else perform_translation lib now pairs (translate_button widgets)
                    (input_text widgets) (Some si) (Some ti) fc tc
                    (add_ui w1 evs)).
Proof.
  intros w1 pairs. unfold main_translation_interface.
  erewrite bind_normal by apply get_available_language_pairs_run.
  fold w1. fold pairs. clearbody pairs. clearbody w1.
  destruct pairs as [|p rest].
  - left. split; [reflexivity|]. cbn [Py.truthy negb].
    erewrite bind_normal by reflexivity.
    unfold st_info, emit. cbn. unfold add_ui. rewrite <- app_assoc. reflexivity.
  - right. split; [discriminate|]. cbn [Py.truthy negb].
    assert (Hne : p :: rest <> []) by discriminate.
    remember (p :: rest) as pairs eqn:Ep. clear Ep.
    erewrite bind_normal by reflexivity.
    destruct (@select_source_run pairs (from_lang_choice widgets)
                (snd (st_subheader ([128292%N] ++ Py.lit " Select Languages") w1)) Hne)
      as (fc & fn & Hf & Hsrc).
    erewrite bind_normal by exact Hsrc.
    cbn [fst snd].
    assert (Hto : to_languages pairs fc <> []).
    { apply offered_source_has_target with (n := fn).
      eapply nth_error_In. exact Hf. }
    match goal with
    | |- context [bind (select_target _ _ _) _ ?w0] =>
        destruct (@select_target_run pairs fc (to_lang_choice widgets) w0 Hto)
          as (tc & tn & Ht & Htgt)
    end.
    exists (selected_index (List.length (from_languages pairs))
                           (from_lang_choice widgets)),
           (selected_index (List.length (to_languages pairs fc))
                           (to_lang_choice widgets)), fc, fn, tc, tn.
    eexists. split; [exact Hf|]. split; [exact Ht|].
    erewrite bind_normal by exact Htgt.
    cbv beta iota.
    erewrite bind_normal by reflexivity.
    erewrite bind_normal by (apply py_index_run, Hf).
    erewrite bind_normal by reflexivity.
    erewrite bind_normal by reflexivity.
    erewrite bind_normal by reflexivity.
    cbn [snd fst st_subheader st_text_area st_button emit bind ret].
    destruct (clear_button widgets).
    2: { erewrite bind_normal by reflexivity. f_equal.
         unfold add_ui. cbn [session ui lib_calls]. rewrite <- !app_assoc.
         reflexivity. }
    unfold bind. cbn. unfold set_input, add_ui, mk_world. cbn.
    rewrite <- !app_assoc. reflexivity.
Qed.

Ltac main_cases lib now widgets w :=
  let Hp := fresh "Hpairs" in
  let Hrun := fresh "Hrun" in
  let Hf := fresh "Hfrom" in
  let Ht := fresh "Hto" in
  destruct (main_translation_interface_run lib now widgets w)
    as [[Hp Hrun] | [Hp (si & ti & fc & fn & tc & tn & evs & Hf & Ht & Hrun)]];
  rewrite Hrun; clear Hrun;
  [ | destruct (clear_button widgets) eqn:Hclear;
      [ | rewrite (@perform_translation_run lib now _ _ _ si ti fc tc fc fn tc tn _ Hf Ht);
          destruct (translate_button widgets) eqn:Hbutton;
          [ destruct (blank (input_text widgets)) eqn:Hblank;
            [ | destruct (translate lib (input_text widgets) fc tc)
                  as [[|c rest]|e] eqn:Htr ]
          | ] ] ].


(** X6: In one run the translation interface asks the library for the
    installed languages once and for at most one translation; a translation
    is asked only when Translate is pressed, Clear is not, and the text is not
    blank, and then for the text as entered and for a (from_code, to_code)
    that is among the pairs the refresh of this run stored. *)
Theorem translation_interface_calls (lib : Library) (now : Py.str)
    (widgets : Widgets) (w : World) :
  lib_calls (snd (main_translation_interface lib now widgets w))
  = lib_calls w ++ [CallGetInstalledLanguages]
  \/ exists fc fn tc tn,
       In (info_of (fc, fn, tc, tn))
          (installed_packages (session (snd (refresh_installed_packages lib w))))
       /\ translate_button widgets = true
       /\ clear_button widgets = false
       /\ blank (input_text widgets) = false
       /\ lib_calls (snd (main_translation_interface lib now widgets w))
          = lib_calls w
            ++ [CallGetInstalledLanguages;
                CallTranslate (input_text widgets) fc tc].
Proof.
  assert (Hc : lib_calls (snd (refresh_installed_packages lib w))
               = lib_calls w ++ [CallGetInstalledLanguages]).
  { rewrite refresh_installed_packages_run.
    destruct (get_installed_languages lib); reflexivity. }
  assert (Hin : forall fc tc tn ti,
             nth_error
               (to_languages
                  (map pair_of (installed_packages
                                  (session (snd (refresh_installed_packages lib w)))))
                  fc) ti = Some (tc, tn) ->
             exists fn,
               In (info_of (fc, fn, tc, tn))
                  (installed_packages
                     (session (snd (refresh_installed_packages lib w))))).
  { intros fc tc tn ti Hnth. apply nth_error_In, to_languages_In in Hnth.
    destruct Hnth as (fn & Hin). exists fn. cbn [fst snd] in Hin.
    apply in_map_iff in Hin as (pkg & Heq & Hin).
    replace (info_of (fc, fn, tc, tn)) with pkg; [exact Hin|].
    rewrite <- Heq. destruct pkg; reflexivity. }
  main_cases lib now widgets w; cbn [snd];
    try (left; cbn; rewrite Hc; reflexivity);
    right; destruct (Hin _ _ _ _ Hto) as (fn' & Hin');
    exists fc, fn', tc, tn; repeat split; try assumption; try reflexivity;
    cbn; rewrite Hc, <- app_assoc; reflexivity.
Qed.



(** X8: A run of the translation interface leaves the history as it was, or
    puts exactly one record in front of it and cuts it to ten: the record of
    a translation the library returned non-empty, with the clock's timestamp,
    the names of the selected source and target, the text as entered and the
    library's result. *)
Theorem translation_interface_history_step (lib : Library) (now : Py.str)
    (widgets : Widgets) (w : World) :
  translation_history (session (snd (main_translation_interface lib now widgets w)))
  = translation_history (session w)
  \/ exists fc fn tc tn t,
       translate lib (input_text widgets) fc tc = Py.Returned t
       /\ t <> []
       /\ blank (input_text widgets) = false
       /\ In (fc, fn)
             (from_languages
                (map pair_of
                     (installed_packages
                        (session (snd (refresh_installed_packages lib w))))))
       /\ In (tc, tn)
             (to_languages
                (map pair_of
                     (installed_packages
                        (session (snd (refresh_installed_packages lib w)))))
                fc)
       /\ translation_history
            (session (snd (main_translation_interface lib now widgets w)))
          = firstn 10
              ({| timestamp := now; from_lang := fn; to_lang_name := tn;
                  original := input_text widgets; translated := t |}
               :: translation_history (session w)).
Proof.
  assert (Hr : translation_history (session (snd (refresh_installed_packages lib w)))
               = translation_history (session w)).
  { rewrite refresh_installed_packages_run.
    destruct (get_installed_languages lib); reflexivity. }
  main_cases lib now widgets w; cbn [snd];
    try (left; cbn; exact Hr).
  right. exists fc, fn, tc, tn, (c :: rest).
  split; [exact Htr|]. split; [discriminate|]. split; [reflexivity|].
  split; [eapply nth_error_In; exact Hfrom|].
  split; [eapply nth_error_In; exact Hto|].
  cbn. rewrite Hr. reflexivity.
Qed.

(** X9: The translation interface keeps the bound of the history: a history of
    at most ten records has at most ten records after the run. *)
Theorem translation_interface_keeps_history_bound (lib : Library) (now : Py.str)
    (widgets : Widgets) (w : World) :
  List.length (translation_history (session w)) <= 10 ->
  List.length
    (translation_history (session (snd (main_translation_interface lib now widgets w))))
  <= 10.
Proof.
  intros Hlen.
  assert (Hr : translation_history (session (snd (refresh_installed_packages lib w)))
               = translation_history (session w)).
  { rewrite refresh_installed_packages_run.
    destruct (get_installed_languages lib); reflexivity. }
  main_cases lib now widgets w; cbn [snd];
    try (cbn; rewrite Hr; exact Hlen).
  unfold after_success.
  cbn [add_ui set_history mk_world session translation_history].
  apply firstn_le_length.
Qed.

Lemma translation_interface_keeps_history_bound_witness :
  List.length
    (translation_history
       (session (snd (main_translation_interface Ex.lib_en_es (Ex.stamp 7)
                        {| from_lang_choice := 0; to_lang_choice := 0;
                           input_text := Py.lit "Hello";
                           translate_button := true; clear_button := false |}
                        Ex.w0))))
  <= 10.
Proof.
  apply translation_interface_keeps_history_bound. cbn. lia.
Defined.

(** X10: A translation that the library returns non-empty is shown and
    recorded: the result box and the code block are rendered after the
    heading, and one record with the clock's timestamp, the two language
    names, the text as entered and the result is put in front of the
    history, which is cut to ten. *)
Theorem successful_translation_is_recorded (lib : Library) (now : Py.str)
    (available_pairs : list Pair) (text : Py.str) (si ti : nat)
    (from_code to_code fc from_name tc to_name t : Py.str) (w : World) :
  blank text = false ->
  translate lib text from_code to_code = Py.Returned t ->
  t <> [] ->
  nth_error (from_languages available_pairs) si = Some (fc, from_name) ->
  nth_error (to_languages available_pairs from_code) ti = Some (tc, to_name) ->
  fst (perform_translation lib now available_pairs true text (Some si) (Some ti)
         from_code to_code w) = Normal tt
  /\ translation_history
       (session (snd (perform_translation lib now available_pairs true text
                        (Some si) (Some ti) from_code to_code w)))
     = firstn 10
         ({| timestamp := now; from_lang := from_name; to_lang_name := to_name;
             original := text; translated := t |}
          :: translation_history (session w))
  /\ ui (snd (perform_translation lib now available_pairs true text
                (Some si) (Some ti) from_code to_code w))
     = ui w ++ [UiSubheader ([128221%N] ++ Py.lit " Translation Result");
                UiMarkdown (result_box to_name t);
                UiCode t]
  /\ installed_packages
       (session (snd (perform_translation lib now available_pairs true text
                        (Some si) (Some ti) from_code to_code w)))
     = installed_packages (session w).
Proof.
  intros Hb Htr Hne Hf Ht.
  rewrite (@perform_translation_run lib now available_pairs true text si ti
             from_code to_code fc from_name tc to_name w Hf Ht).
  rewrite Hb, Htr. destruct t as [|c rest]; [contradiction|].
  cbn. rewrite <- app_assoc. repeat split; reflexivity.
Qed.

Lemma successful_translation_is_recorded_witness :
  translation_history
    (session (snd (perform_translation Ex.lib_en_es (Ex.stamp 7) [pair_of Ex.en_es]
                     true (Py.lit "Hello") (Some 0) (Some 0) Ex.en Ex.es Ex.w0)))
  = [{| timestamp := Ex.stamp 7; from_lang := Ex.English;
        to_lang_name := Ex.Spanish; original := Py.lit "Hello";
        translated := Py.lit "Hello" |}].
Proof.
  refine (proj1 (proj2 (@successful_translation_is_recorded Ex.lib_en_es (Ex.stamp 7)
                          [pair_of Ex.en_es] (Py.lit "Hello") 0 0 Ex.en Ex.es
                          Ex.en Ex.English Ex.es Ex.Spanish (Py.lit "Hello") Ex.w0
                          eq_refl eq_refl _ eq_refl eq_refl))).
  discriminate.
Defined.

(** X11: Recording up to ten records keeps them all, the newest first, in
    front of as much of the old history as still fits; records are kept
    whatever they hold, so a translation recorded twice is listed twice. *)
Theorem history_keeps_all_up_to_ten (recs : list TranslationRecord) (w : World) :
  0 < List.length recs <= 10 ->
  translation_history (session (snd (for_list recs add_to_history w)))
  = rev recs ++ firstn (10 - List.length recs) (translation_history (session w)).
Proof.
  intros Hlen. destruct (record_all_run recs w) as [_ H]. rewrite H.
  destruct recs as [|r recs]; [simpl in Hlen; lia|].
  rewrite firstn_app, length_rev. f_equal.
  apply firstn_all2. rewrite length_rev. lia.
Qed.

Lemma history_keeps_all_up_to_ten_witness :
  translation_history
    (session (snd (for_list [Ex.rec_n 1; Ex.rec_n 1] add_to_history Ex.w0)))
  = [Ex.rec_n 1; Ex.rec_n 1].
Proof.
  refine (@history_keeps_all_up_to_ten [Ex.rec_n 1; Ex.rec_n 1] Ex.w0 _).
  cbn. lia.
Defined.

(* ===================================================================== *)
(** ** The package index *)
(* ===================================================================== *)

Lemma skipn_length_app {A} (l evs : list A) : skipn (List.length l) (l ++ evs) = evs.
Proof. rewrite skipn_app, skipn_all, Nat.sub_diag. reflexivity. Qed.

(** A lifted piece that renders [evs]. *)
Lemma lift_run {A} (m : M A) (p : PageState) (o : Outcome A) (w' : World)
    (evs : list UiEvent) :
  m (world p) = (o, w') -> ui w' = ui (world p) ++ evs ->
  lift m p = (o, mk_page w' (pkg_calls p) (page p ++ map Shown evs)).
Proof.
  intros Hm Hui. unfold lift. rewrite Hm, Hui, skipn_length_app. reflexivity.
Qed.

(** A lifted piece that renders nothing. *)
Lemma lift_silent {A} (m : M A) (p : PageState) (o : Outcome A) (w' : World) :
  m (world p) = (o, w') -> ui w' = ui (world p) ->
  lift m p = (o, mk_page w' (pkg_calls p) (page p)).
Proof.
  intros Hm Hui.
  rewrite (@lift_run _ m p o w' [] Hm) by now rewrite app_nil_r.
  cbn [map]. now rewrite app_nil_r.
Qed.

Lemma pbind_normal {A B} (m : P A) (k : A -> P B) (p p' : PageState) (a : A) :
  m p = (Normal a, p') -> pbind m k p = k a p'.
Proof. intros H. unfold pbind. now rewrite H. Qed.

Lemma set_available_same (w : World) :
  set_available w (available_packages (session w)) = w.
Proof. destruct w as [[i a h t] u c]. reflexivity. Qed.

(** The loop of lines 156-164 appends the packages in order. *)
Lemma packages_loop (pkgs : list Package) (p : PageState) :
  pfor_list pkgs
    (fun package =>
       lift (bind get_session (fun s =>
               set_available_packages
                 (available_packages s ++ [available_info_of package])))) p
  = (Normal tt,
     mk_page (set_available (world p)
                (available_packages (session (world p))
                 ++ map available_info_of pkgs))
             (pkg_calls p) (page p)).
Proof.
  revert p. induction pkgs as [|pkg pkgs IH]; intros p.
  - cbn [pfor_list map pret]. rewrite app_nil_r, set_available_same.
    destruct p; reflexivity.
  - cbn [pfor_list].
    erewrite pbind_normal by (apply lift_silent; reflexivity).
    rewrite IH. cbn [mk_page world pkg_calls page map].
    cbn [snd bind get_session set_available_packages set_session session
         available_packages].
    unfold set_available, mk_world. cbn. rewrite <- app_assoc. reflexivity.
Qed.

(** What [refresh_available_packages] does, case by case. *)
Lemma refresh_available_packages_run (plib : PackageLibrary) (p : PageState) :
  refresh_available_packages plib p =
  match update_package_index plib (pkg_calls p) with
  | Py.Raised e =>
      (Normal tt,
       render (mk_page (world p) (pkg_calls p ++ [CallUpdatePackageIndex]) (page p))
              [index_message e])
  | Py.Returned _ =>
      match get_available_packages plib (pkg_calls p ++ [CallUpdatePackageIndex]) with
      | Py.Raised e =>
          (Normal tt,
           render (mk_page (world p)
                     (pkg_calls p ++ [CallUpdatePackageIndex; CallGetAvailablePackages])
                     (page p))
                  [index_message e])
      | Py.Returned packages =>
          (Normal tt,
           render (mk_page (set_available (world p)
                              (map available_info_of (Py.yielded packages)))
                     (pkg_calls p ++ [CallUpdatePackageIndex; CallGetAvailablePackages])
                     (page p))
                  (match Py.stops_with packages with
                   | Some e => [index_message e]
                   | None => []
                   end))
      end
  end.
Proof.
  unfold refresh_available_packages, ptry.
  unfold pbind at 1. unfold ask at 1. cbn [pkg_calls world page].
  destruct (update_package_index plib (pkg_calls p)) as [u|e].
  - unfold pbind at 1. unfold ask at 1. cbn [pkg_calls world page].
    destruct (get_available_packages plib (pkg_calls p ++ [CallUpdatePackageIndex]))
      as [packages|e].
    + erewrite pbind_normal by (apply lift_silent; reflexivity).
      unfold pfor_each, pbind at 1. rewrite packages_loop.
      cbn [mk_page world pkg_calls page snd set_available_packages bind get_session
           set_session session available_packages app].
      rewrite <- app_assoc. cbn [app].
      destruct (Py.stops_with packages) as [e|].
      * unfold lift, render, st_error, emit, add_ui, mk_page, set_available, mk_world.
        cbn. rewrite skipn_length_app. reflexivity.
      * unfold render, add_ui, mk_page, set_available, mk_world, pret. cbn.
        rewrite !app_nil_r. reflexivity.
    + unfold lift, render, st_error, emit, add_ui, mk_page. cbn.
      rewrite skipn_length_app, <- app_assoc. reflexivity.
  - unfold lift, render, st_error, emit, add_ui, mk_page. cbn.
    rewrite skipn_length_app. reflexivity.
Qed.

(** X12: When the index update raises, [refresh_available_packages] does not
    ask for the list of packages: the stored lists and the history are
    untouched, the error "Error updating package index: e" is shown and no
    exception propagates. *)
Theorem failed_index_update_keeps_available (plib : PackageLibrary) (p : PageState)
    (e : Py.Exception) :
  update_package_index plib (pkg_calls p) = Py.Raised e ->
  fst (refresh_available_packages plib p) = Normal tt
  /\ session (world (snd (refresh_available_packages plib p))) = session (world p)
  /\ pkg_calls (snd (refresh_available_packages plib p))
     = pkg_calls p ++ [CallUpdatePackageIndex]
  /\ page (snd (refresh_available_packages plib p))
     = page p ++ [Shown (index_message e)].
Proof.
  intros H. rewrite refresh_available_packages_run, H. repeat split; reflexivity.
Qed.

Lemma failed_index_update_keeps_available_witness :
  update_package_index ExPage.plib_offline (pkg_calls ExPage.p_listed) = Py.Raised Ex.boom
  /\ session (world (snd (refresh_available_packages ExPage.plib_offline ExPage.p_listed)))
     = session (world ExPage.p_listed).
Proof.
  split; [reflexivity|].
  exact (proj1 (proj2 (@failed_index_update_keeps_available ExPage.plib_offline
                         ExPage.p_listed Ex.boom eq_refl))).
Defined.

(** X13: When the index is updated but the listing call raises, the stored
    lists and the history are untouched as well, and the error is shown. *)
Theorem failed_listing_keeps_available (plib : PackageLibrary) (p : PageState)
    (e : Py.Exception) :
  update_package_index plib (pkg_calls p) = Py.Returned tt ->
  get_available_packages plib (pkg_calls p ++ [CallUpdatePackageIndex]) = Py.Raised e ->
  fst (refresh_available_packages plib p) = Normal tt
  /\ session (world (snd (refresh_available_packages plib p))) = session (world p)
  /\ pkg_calls (snd (refresh_available_packages plib p))
     = pkg_calls p ++ [CallUpdatePackageIndex; CallGetAvailablePackages]
  /\ page (snd (refresh_available_packages plib p))
     = page p ++ [Shown (index_message e)].
Proof.
  intros H1 H2. rewrite refresh_available_packages_run, H1, H2.
  repeat split; reflexivity.
Qed.

Lemma failed_listing_keeps_available_witness :
  session
    (world (snd (refresh_available_packages
                   {| update_package_index := fun _ => Py.Returned tt;
                      get_available_packages := fun _ => Py.Raised Ex.boom;
                      download := fun _ _ => Py.Raised Ex.boom;
                      install_from_path := fun _ _ => Py.Returned tt;
                      translate_module := fun _ => Ex.lib_down |}
                   ExPage.p_listed)))
  = session (world ExPage.p_listed).
Proof.
  exact (proj1 (proj2 (@failed_listing_keeps_available
                         {| update_package_index := fun _ => Py.Returned tt;
                            get_available_packages := fun _ => Py.Raised Ex.boom;
                            download := fun _ _ => Py.Raised Ex.boom;
                            install_from_path := fun _ _ => Py.Returned tt;
                            translate_module := fun _ => Ex.lib_down |}
                         ExPage.p_listed Ex.boom eq_refl eq_refl))).
Defined.

(** X14: When both calls return, the stored list of available packages is
    replaced by the packages the listing yields, in its order, each with its
    package object; the installed list, the history and the calls to the
    translation module are untouched and no exception propagates. If the
    listing raises while it is iterated, the list holds the packages yielded
    before the error and the error is shown. *)
Theorem refresh_available_replaces_list (plib : PackageLibrary) (p : PageState)
    (packages : Py.Iterable Package) :
  update_package_index plib (pkg_calls p) = Py.Returned tt ->
  get_available_packages plib (pkg_calls p ++ [CallUpdatePackageIndex])
  = Py.Returned packages ->
  fst (refresh_available_packages plib p) = Normal tt
  /\ available_packages (session (world (snd (refresh_available_packages plib p))))
     = map available_info_of (Py.yielded packages)
  /\ installed_packages (session (world (snd (refresh_available_packages plib p))))
     = installed_packages (session (world p))
  /\ translation_history (session (world (snd (refresh_available_packages plib p))))
     = translation_history (session (world p))
  /\ lib_calls (world (snd (refresh_available_packages plib p))) = lib_calls (world p)
  /\ page (snd (refresh_available_packages plib p))
     = page p ++ match Py.stops_with packages with
                 | Some e => [Shown (index_message e)]
                 | None => []
                 end.
Proof.
  intros H1 H2. rewrite refresh_available_packages_run, H1, H2.
  destruct (Py.stops_with packages); repeat split; reflexivity.
Qed.

Lemma refresh_available_replaces_list_witness :
  available_packages
    (session (world (snd (refresh_available_packages ExPage.plib_listing_breaks
                            ExPage.p_listed))))
  = [available_info_of ExPage.pkg_en_fr].
Proof.
  exact (proj1 (proj2 (@refresh_available_replaces_list ExPage.plib_listing_breaks
                         ExPage.p_listed _ eq_refl eq_refl))).
Defined.

(* ===================================================================== *)
(** ** [install_package] *)
(* ===================================================================== *)

Lemma install_package_run (plib : PackageLibrary) (info : AvailablePackageInfo)
    (p : PageState) :
  install_package plib info p =
  match download plib (package info) (pkg_calls p) with
  | Py.Raised e =>
      (Normal false,
       render (mk_page (world p) (pkg_calls p ++ [CallDownload (package info)]) (page p))
              [install_message e])
  | Py.Returned download_path =>
      match install_from_path plib download_path
              (pkg_calls p ++ [CallDownload (package info)]) with
      | Py.Raised e =>
          (Normal false,
           render (mk_page (world p)
                     (pkg_calls p ++ [CallDownload (package info);
                                      CallInstallFromPath download_path])
                     (page p))
                  [install_message e])
      | Py.Returned _ =>
          (Normal true,
           mk_page (world p)
             (pkg_calls p ++ [CallDownload (package info);
                              CallInstallFromPath download_path])
             (page p))
      end
  end.
Proof.
  unfold install_package, ptry.
  unfold pbind at 1. unfold ask at 1. cbn [pkg_calls world page].
  destruct (download plib (package info) (pkg_calls p)) as [path|e].
  - unfold pbind at 1. unfold ask at 1. cbn [pkg_calls world page].
    destruct (install_from_path plib path (pkg_calls p ++ [CallDownload (package info)]))
      as [u|e].
    + unfold pret, mk_page. rewrite <- app_assoc. reflexivity.
    + unfold pbind, lift, render, st_error, emit, add_ui, mk_page, pret. cbn.
      rewrite skipn_length_app, <- app_assoc. reflexivity.
  - unfold pbind, lift, render, st_error, emit, add_ui, mk_page, pret. cbn.
    rewrite skipn_length_app. reflexivity.
Qed.

(** X15: [install_package] downloads first and installs from the path the
    download returned; when the download raises, nothing is installed. These
    are its only calls. *)
Theorem install_package_calls (plib : PackageLibrary) (info : AvailablePackageInfo)
    (p : PageState) :
  pkg_calls (snd (install_package plib info p))
  = pkg_calls p
    ++ CallDownload (package info)
       :: match download plib (package info) (pkg_calls p) with
          | Py.Returned download_path => [CallInstallFromPath download_path]
          | Py.Raised _ => []
          end
  /\ lib_calls (world (snd (install_package plib info p))) = lib_calls (world p).
Proof.
  rewrite install_package_run.
  destruct (download plib (package info) (pkg_calls p)) as [path|e];
    [|split; reflexivity].
  destruct (install_from_path plib path (pkg_calls p ++ [CallDownload (package info)]));
    split; reflexivity.
Qed.

(** X16: [install_package] never lets an exception through and never changes
    the session state: it returns [True] exactly when the download and the
    installation both return, and otherwise returns [False] after showing
    "Error installing package: e" for the call that raised. *)
Theorem install_package_result (plib : PackageLibrary) (info : AvailablePackageInfo)
    (p : PageState) :
  session (world (snd (install_package plib info p))) = session (world p)
  /\ ((exists download_path,
          download plib (package info) (pkg_calls p) = Py.Returned download_path
          /\ install_from_path plib download_path
               (pkg_calls p ++ [CallDownload (package info)]) = Py.Returned tt)
      /\ fst (install_package plib info p) = Normal true
      /\ page (snd (install_package plib info p)) = page p
      \/ exists e,
          (download plib (package info) (pkg_calls p) = Py.Raised e
           \/ exists download_path,
               download plib (package info) (pkg_calls p) = Py.Returned download_path
               /\ install_from_path plib download_path
                    (pkg_calls p ++ [CallDownload (package info)]) = Py.Raised e)
          /\ fst (install_package plib info p) = Normal false
          /\ page (snd (install_package plib info p))
             = page p ++ [Shown (install_message e)]).
Proof.
  rewrite install_package_run.
  destruct (download plib (package info) (pkg_calls p)) as [path|e] eqn:Hd.
  - destruct (install_from_path plib path (pkg_calls p ++ [CallDownload (package info)]))
      as [[]|e] eqn:Hi.
    + split; [reflexivity|]. left. split; [exists path; split; [reflexivity|exact Hi]|].
      split; reflexivity.
    + split; [reflexivity|]. right. exists e.
      split; [right; exists path; split; [reflexivity|exact Hi]|].
      split; reflexivity.
  - split; [reflexivity|]. right. exists e. split; [left; reflexivity|].
    split; reflexivity.
Qed.

(* ===================================================================== *)
(** ** Installing from the sidebar *)
(* ===================================================================== *)

Lemma lift_rerun {A} (p : PageState) : lift (@rerun A) p = (Rerun, p).
Proof.
  unfold lift, rerun. rewrite skipn_all. cbn [map]. rewrite app_nil_r.
  destruct p; reflexivity.
Qed.

Lemma lift_get_session (p : PageState) :
  lift get_session p = (Normal (session (world p)), p).
Proof.
  unfold lift, get_session. rewrite skipn_all. cbn [map]. rewrite app_nil_r.
  destruct p; reflexivity.
Qed.

Lemma lift_emit (ev : UiEvent) (p : PageState) :
  lift (emit ev) p = (Normal tt, render p [ev]).
Proof.
  unfold lift, emit, render, add_ui, mk_page. cbn. now rewrite skipn_length_app.
Qed.

Lemma lift_st_button (label : Py.str) (pressed : bool) (p : PageState) :
  lift (st_button label pressed) p = (Normal pressed, render p [UiButton label]).
Proof.
  unfold lift, st_button, bind, emit, ret, render, add_ui, mk_page. cbn.
  now rewrite skipn_length_app.
Qed.

(** A refresh of the installed list within the page. *)
Lemma refresh_installed_run (plib : PackageLibrary) (p : PageState) :
  exists evs,
    ui (snd (refresh_installed_packages (translate_module plib (pkg_calls p)) (world p)))
    = ui (world p) ++ evs
    /\ refresh_installed plib p
       = (Normal tt,
          mk_page (snd (refresh_installed_packages
                          (translate_module plib (pkg_calls p)) (world p)))
                  (pkg_calls p) (page p ++ map Shown evs)).
Proof.
  unfold refresh_installed.
  assert (H : exists evs,
             refresh_installed_packages (translate_module plib (pkg_calls p)) (world p)
             = (Normal tt,
                snd (refresh_installed_packages
                       (translate_module plib (pkg_calls p)) (world p)))
             /\ ui (snd (refresh_installed_packages
                           (translate_module plib (pkg_calls p)) (world p)))
                = ui (world p) ++ evs).
  { rewrite refresh_installed_packages_run.
    destruct (get_installed_languages (translate_module plib (pkg_calls p)));
      eexists; split; reflexivity. }
  destruct H as (evs & Hrun & Hui). exists evs. split; [exact Hui|].
  now apply lift_run.
Qed.

Lemma install_and_rerun_run (plib : PackageLibrary) (pkg : AvailablePackageInfo)
    (message : Py.str) (p : PageState) :
  install_and_rerun plib pkg message p
  = match fst (install_package plib pkg p) with
    | Normal true =>
        (Rerun,
         snd (refresh_installed plib
                (snd (show (UiSuccess message) (snd (install_package plib pkg p))))))
    | _ => (Normal tt, snd (install_package plib pkg p))
    end.
Proof.
  unfold install_and_rerun, pbind at 1.
  assert (H : exists b, fst (install_package plib pkg p) = Normal b).
  { rewrite install_package_run.
    destruct (download plib (package pkg) (pkg_calls p)) as [path|e];
      [|eexists; reflexivity].
    destruct (install_from_path plib path (pkg_calls p ++ [CallDownload (package pkg)]));
      eexists; reflexivity. }
  destruct H as [b Hb].
  destruct (install_package plib pkg p) as [o p1]. cbn [fst snd] in *. subst o.
  destruct b; [|reflexivity].
  erewrite pbind_normal by reflexivity.
  destruct (refresh_installed_run plib (snd (show (UiSuccess message) p1)))
    as (evs & _ & Hr).
  erewrite pbind_normal by exact Hr.
  rewrite Hr. cbn [snd]. apply lift_rerun.
Qed.

(** X17: The quick install takes the first package of the stored list that has
    the two codes, whatever follows it in the list, and installs that one;
    when the list has no such package nothing happens at all: no call, no
    message, no change of state. *)
Theorem quick_install_first_match (plib : PackageLibrary)
    (pkgs : list AvailablePackageInfo) (from_code' to_code' display_name : Py.str)
    (p : PageState) :
  quick_install plib pkgs from_code' to_code' display_name p
  = match find (matches from_code' to_code') pkgs with
    | Some pkg => install_and_rerun plib pkg (Py.lit "Installed " ++ display_name) p
    | None => (Normal tt, p)
    end.
Proof.
  induction pkgs as [|pkg pkgs IH]; [reflexivity|].
  cbn [quick_install find]. unfold matches at 1.
  destruct (Py.str_eqb (from_code (avail_pair pkg)) from_code'
            && Py.str_eqb (to_code (avail_pair pkg)) to_code');
    [reflexivity | exact IH].
Qed.

(** X18: A quick install downloads at most one package, the first match, and
    installs from the path of that download. *)
Theorem quick_install_calls (plib : PackageLibrary)
    (pkgs : list AvailablePackageInfo) (from_code' to_code' display_name : Py.str)
    (p : PageState) :
  pkg_calls (snd (quick_install plib pkgs from_code' to_code' display_name p))
  = pkg_calls p
    ++ match find (matches from_code' to_code') pkgs with
       | None => []
       | Some pkg =>
           CallDownload (package pkg)
           :: match download plib (package pkg) (pkg_calls p) with
              | Py.Returned download_path => [CallInstallFromPath download_path]
              | Py.Raised _ => []
              end
       end.
Proof.
  assert (Hq : quick_install plib pkgs from_code' to_code' display_name p
               = match find (matches from_code' to_code') pkgs with
                 | Some pkg =>
                     install_and_rerun plib pkg (Py.lit "Installed " ++ display_name) p
                 | None => (Normal tt, p)
                 end).
  { induction pkgs as [|pkg pkgs IH]; [reflexivity|].
    cbn [quick_install find]. unfold matches at 1.
    destruct (Py.str_eqb (from_code (avail_pair pkg)) from_code'
              && Py.str_eqb (to_code (avail_pair pkg)) to_code');
      [reflexivity | exact IH]. }
  rewrite Hq. destruct (find (matches from_code' to_code') pkgs) as [pkg|];
    [|cbn; now rewrite app_nil_r].
  rewrite install_and_rerun_run, install_package_run.
  destruct (download plib (package pkg) (pkg_calls p)) as [path|e];
    [|reflexivity].
  destruct (install_from_path plib path (pkg_calls p ++ [CallDownload (package pkg)]));
    [|reflexivity].
  cbn [fst snd].
  match goal with
  | |- pkg_calls (snd (refresh_installed plib ?q)) = _ =>
      destruct (refresh_installed_run plib q) as (evs & _ & Hr); rewrite Hr
  end.
  reflexivity.
Qed.

(** X19: After an installation that succeeded, the success message is shown, the
    installed list is refreshed against the translation module as it answers
    after the installation, and the script is rerun; after one that failed the
    run goes on with the installed list as it was and no message of
    success. *)
Theorem install_then_refresh_and_rerun (plib : PackageLibrary)
    (pkg : AvailablePackageInfo) (message : Py.str) (p : PageState) :
  (fst (install_package plib pkg p) = Normal true ->
   fst (install_and_rerun plib pkg message p) = Rerun
   /\ In (UiSuccess message) (page (snd (install_and_rerun plib pkg message p)))
   /\ installed_packages (session (world (snd (install_and_rerun plib pkg message p))))
      = installed_packages
          (session
             (snd (refresh_installed_packages
                     (translate_module plib (pkg_calls (snd (install_package plib pkg p))))
                     (world p)))))
  /\ (fst (install_package plib pkg p) = Normal false ->
      fst (install_and_rerun plib pkg message p) = Normal tt
      /\ session (world (snd (install_and_rerun plib pkg message p)))
         = session (world p)
      /\ lib_calls (world (snd (install_and_rerun plib pkg message p)))
         = lib_calls (world p)
      /\ ~ In (UiSuccess message)
              (skipn (List.length (page p))
                     (page (snd (install_and_rerun plib pkg message p))))).
Proof.
  rewrite install_and_rerun_run. split; intros Hok; rewrite Hok.
  - cbn [fst snd].
    match goal with
    | |- context [refresh_installed plib ?q] =>
        destruct (refresh_installed_run plib q) as (evs & _ & Hr); rewrite Hr
    end.
    cbn [snd mk_page world page pkg_calls show].
    split; [reflexivity|]. split.
    + rewrite in_app_iff. left. rewrite in_app_iff. right. now left.
    + revert Hok. rewrite install_package_run.
      destruct (download plib (package pkg) (pkg_calls p)) as [path|e];
        [|discriminate].
      destruct (install_from_path plib path
                  (pkg_calls p ++ [CallDownload (package pkg)]));
        [|discriminate].
      reflexivity.
  - cbn [fst snd]. revert Hok. rewrite install_package_run.
    destruct (download plib (package pkg) (pkg_calls p)) as [path|e].
    + destruct (install_from_path plib path
                  (pkg_calls p ++ [CallDownload (package pkg)]));
        [discriminate|].
      intros _. cbn. rewrite skipn_length_app.
      repeat split; try reflexivity. intros [H|[]]. discriminate H.
    + intros _. cbn. rewrite skipn_length_app.
      repeat split; try reflexivity. intros [H|[]]. discriminate H.
Qed.

Lemma install_then_refresh_and_rerun_witness :
  fst (install_package ExPage.plib_ok (available_info_of ExPage.pkg_en_es) ExPage.p0)
  = Normal true
  /\ fst (install_and_rerun ExPage.plib_ok (available_info_of ExPage.pkg_en_es)
            (Py.lit "Installed") ExPage.p0) = Rerun.
Proof.
  split; [reflexivity|].
  exact (proj1 (proj1 (@install_then_refresh_and_rerun ExPage.plib_ok
                         (available_info_of ExPage.pkg_en_es) (Py.lit "Installed")
                         ExPage.p0) eq_refl)).
Defined.

Lemma quick_install_run (plib : PackageLibrary)
    (pkgs : list AvailablePackageInfo) (from_code' to_code' display_name : Py.str)
    (p : PageState) :
  quick_install plib pkgs from_code' to_code' display_name p
  = match find (matches from_code' to_code') pkgs with
    | Some pkg => install_and_rerun plib pkg (Py.lit "Installed " ++ display_name) p
    | None => (Normal tt, p)
    end.
Proof.
  induction pkgs as [|pkg pkgs IH]; [reflexivity|].
  cbn [quick_install find]. unfold matches at 1.
  destruct (Py.str_eqb (from_code (avail_pair pkg)) from_code'
            && Py.str_eqb (to_code (avail_pair pkg)) to_code');
    [reflexivity | exact IH].
Qed.

(* ===================================================================== *)
(** ** Steps of the page *)
(* ===================================================================== *)

Lemma grows_refl (p : PageState) : grows p p.
Proof. split; exists []; now rewrite app_nil_r. Qed.

Lemma grows_trans (p1 p2 p3 : PageState) : grows p1 p2 -> grows p2 p3 -> grows p1 p3.
Proof.
  intros [[e1 H1] [c1 H1']] [[e2 H2] [c2 H2']]. split.
  - exists (e1 ++ e2). now rewrite H2, H1, app_assoc.
  - exists (c1 ++ c2). now rewrite H2', H1', app_assoc.
Qed.

Lemma quiet_refl (p : PageState) : quiet p p.
Proof. repeat split. Qed.

Lemma quiet_trans (p1 p2 p3 : PageState) : quiet p1 p2 -> quiet p2 p3 -> quiet p1 p3.
Proof.
  intros (A1 & B1 & C1) (A2 & B2 & C2). repeat split; congruence.
Qed.

Lemma steps_pbind (R : PageState -> PageState -> Prop) {A B} (m : P A)
    (k : A -> P B) (p : PageState) :
  (forall p1 p2 p3, R p1 p2 -> R p2 p3 -> R p1 p3) ->
  steps_within R m p ->
  (forall a p', m p = (Normal a, p') -> steps_within R (k a) p') ->
  steps_within R (pbind m k) p.
Proof.
  intros Htrans [Hm1 Hm2] Hk. unfold steps_within, pbind in *.
  destruct (m p) as [[a| |] p'] eqn:E; cbn [fst snd] in *.
  - destruct (Hk a p' eq_refl) as [Hk1 Hk2]. split; [exact Hk1|].
    eapply Htrans; eauto.
  - contradiction.
  - split; [exact I | exact Hm2].
Qed.

Lemma steps_pret (R : PageState -> PageState -> Prop) {A} (a : A) (p : PageState) :
  R p p -> steps_within R (pret a) p.
Proof. intros H. split; [exact I | exact H]. Qed.

Lemma steps_pfor_list (R : PageState -> PageState -> Prop) {A} (l : list A)
    (body : A -> P unit) :
  (forall p, R p p) ->
  (forall p1 p2 p3, R p1 p2 -> R p2 p3 -> R p1 p3) ->
  (forall a p, In a l -> steps_within R (body a) p) ->
  forall p, steps_within R (pfor_list l body) p.
Proof.
  intros Hrefl Htrans. induction l as [|x l IH]; intros Hbody p.
  - now apply steps_pret.
  - cbn [pfor_list]. apply steps_pbind; [exact Htrans | apply Hbody; now left|].
    intros _ p' _. apply IH. intros a q Hin. apply Hbody. now right.
Qed.

Lemma grows_show (ev : PageEvent) (p : PageState) : steps_within grows (show ev) p.
Proof. split; [exact I|]. split; [now exists [ev] | exists []; cbn; now rewrite app_nil_r]. Qed.

Lemma grows_lift {A} (m : M A) (p : PageState) :
  no_exception (fst (m (world p))) -> steps_within grows (lift m) p.
Proof.
  intros H. unfold steps_within, lift. destruct (m (world p)) as [o w'].
  cbn [fst snd] in *. split; [exact H|]. split.
  - eexists. reflexivity.
  - exists []. cbn. now rewrite app_nil_r.
Qed.

Lemma grows_refresh_installed (plib : PackageLibrary) (p : PageState) :
  steps_within grows (refresh_installed plib) p.
Proof.
  destruct (refresh_installed_run plib p) as (evs & _ & Hr).
  unfold steps_within. rewrite Hr. split; [exact I|]. split.
  - eexists. reflexivity.
  - exists []. cbn. now rewrite app_nil_r.
Qed.

Lemma grows_refresh_available (plib : PackageLibrary) (p : PageState) :
  steps_within grows (refresh_available_packages plib) p.
Proof.
  unfold steps_within. rewrite refresh_available_packages_run.
  destruct (update_package_index plib (pkg_calls p)).
  - destruct (get_available_packages plib (pkg_calls p ++ [CallUpdatePackageIndex]));
      (split; [exact I|]); split; eexists; reflexivity.
  - split; [exact I|]. split; eexists; reflexivity.
Qed.

Lemma grows_install_package (plib : PackageLibrary) (info : AvailablePackageInfo)
    (p : PageState) :
  steps_within grows (install_package plib info) p.
Proof.
  unfold steps_within. rewrite install_package_run.
  destruct (download plib (package info) (pkg_calls p)) as [path|e].
  - destruct (install_from_path plib path (pkg_calls p ++ [CallDownload (package info)]));
      (split; [exact I|]); split; try (eexists; reflexivity).
    exists []. cbn. now rewrite app_nil_r.
  - split; [exact I|]. split; eexists; reflexivity.
Qed.

Lemma grows_install_and_rerun (plib : PackageLibrary) (pkg : AvailablePackageInfo)
    (message : Py.str) (p : PageState) :
  steps_within grows (install_and_rerun plib pkg message) p.
Proof.
  unfold install_and_rerun.
  apply steps_pbind; [exact grows_trans | apply grows_install_package|].
  intros [|] p' _; [|apply steps_pret, grows_refl].
  apply steps_pbind; [exact grows_trans | apply grows_show|]. intros _ p2 _.
  apply steps_pbind; [exact grows_trans | apply grows_refresh_installed|].
  intros _ p3 _. apply grows_lift. exact I.
Qed.

Lemma grows_quick_install (plib : PackageLibrary) (pkgs : list AvailablePackageInfo)
    (from_code' to_code' display_name : Py.str) (p : PageState) :
  steps_within grows (quick_install plib pkgs from_code' to_code' display_name) p.
Proof.
  unfold steps_within. rewrite quick_install_run.
  destruct (find (matches from_code' to_code') pkgs).
  - apply grows_install_and_rerun.
  - split; [exact I | apply grows_refl].
Qed.

Lemma no_exception_py_index {A} (l : list A) (choice : nat) (w : World) :
  l <> [] ->
  no_exception (fst (py_index l (Some (selected_index (List.length l) choice)) w)).
Proof.
  intros Hne. destruct (nth_error_selected choice Hne) as [a Ha].
  rewrite (py_index_run _ _ w Ha). exact I.
Qed.

Lemma lift_st_selectbox (label : Py.str) (options : list Py.str) (choice : nat)
    (p : PageState) :
  options <> [] ->
  lift (st_selectbox label options choice) p
  = (Normal (Some (selected_index (List.length options) choice)),
     render p [UiSelectbox label options]).
Proof.
  intros Hne. unfold render.
  apply lift_run; [now apply st_selectbox_run | reflexivity].
Qed.

Lemma grows_render (p : PageState) (evs : list UiEvent) : grows p (render p evs).
Proof.
  split; [eexists; reflexivity | exists []; cbn; now rewrite app_nil_r].
Qed.

Lemma steps_pbind_normal (R : PageState -> PageState -> Prop) {A B} (m : P A)
    (k : A -> P B) (p p' : PageState) (a : A) :
  (forall p1 p2 p3, R p1 p2 -> R p2 p3 -> R p1 p3) ->
  m p = (Normal a, p') -> R p p' -> steps_within R (k a) p' ->
  steps_within R (pbind m k) p.
Proof.
  intros Htrans Hm HR [Hk1 Hk2]. unfold steps_within.
  rewrite (@pbind_normal _ _ m k p p' a Hm). split; [exact Hk1|]. eapply Htrans; eauto.
Qed.

Lemma grows_install_selected (plib : PackageLibrary) (sw : SidebarWidgets)
    (p : PageState) :
  steps_within grows (sidebar_install_selected plib sw) p.
Proof.
  unfold sidebar_install_selected.
  eapply steps_pbind_normal;
    [exact grows_trans | apply lift_get_session | apply grows_refl|].
  destruct (available_packages (session (world p))) as [|a0 rest] eqn:E;
    [apply steps_pret, grows_refl|].
  cbn [map Py.truthy].
  eapply steps_pbind_normal;
    [exact grows_trans | apply lift_st_selectbox; discriminate | apply grows_render|].
  eapply steps_pbind_normal;
    [exact grows_trans | apply lift_st_button | apply grows_render|].
  destruct (install_selected_button sw); [|apply steps_pret, grows_refl].
  eapply steps_pbind_normal;
    [exact grows_trans | apply lift_get_session | apply grows_refl|].
  cbn [render mk_page world add_ui session]. rewrite E.
  apply steps_pbind; [exact grows_trans | |].
  - apply grows_lift. cbn [List.length]. rewrite length_map.
    apply (@no_exception_py_index _ (a0 :: rest)). discriminate.
  - intros pkg p' _. apply grows_install_and_rerun.
Qed.

Lemma grows_update_button (plib : PackageLibrary) (sw : SidebarWidgets)
    (p : PageState) :
  steps_within grows
    (pbind (lift (st_button ([128229%N] ++ Py.lit " Update Index")
                            (update_index_button sw)))
           (fun pressed =>
              if pressed
              then pbind (refresh_available_packages plib)
                         (fun _ => show (UiSuccess (Py.lit "Updated!")))
              else pret tt)) p.
Proof.
  apply steps_pbind; [exact grows_trans | apply grows_lift; exact I|].
  intros b2 q3 _. destruct b2; [|apply steps_pret, grows_refl].
  apply steps_pbind; [exact grows_trans | apply grows_refresh_available|].
  intros _ q4 _. apply grows_show.
Qed.

Lemma grows_refresh_buttons (plib : PackageLibrary) (sw : SidebarWidgets)
    (p : PageState) :
  steps_within grows (sidebar_refresh_buttons plib sw) p.
Proof.
  unfold sidebar_refresh_buttons.
  apply steps_pbind; [exact grows_trans | apply grows_lift; exact I|].
  intros b1 q1 _.
  apply steps_pbind; [exact grows_trans | |].
  { destruct b1; [|apply steps_pret, grows_refl].
    apply steps_pbind; [exact grows_trans | apply grows_refresh_installed|].
    intros _ q2 _. apply grows_show. }
  intros _ q2 _. apply grows_update_button.
Qed.

Lemma grows_installed_list (plib : PackageLibrary) (p : PageState) :
  steps_within grows (sidebar_installed_list plib) p.
Proof.
  unfold sidebar_installed_list.
  apply steps_pbind; [exact grows_trans | apply grows_lift; exact I|].
  intros _ q1 _.
  apply steps_pbind; [exact grows_trans | apply grows_lift; exact I|].
  intros s q2 _.
  apply steps_pbind; [exact grows_trans | |].
  { destruct (negb (Py.truthy (installed_packages s)));
      [apply grows_refresh_installed | apply steps_pret, grows_refl]. }
  intros _ q3 _.
  apply steps_pbind; [exact grows_trans | apply grows_lift; exact I|].
  intros s' q4 _.
  destruct (Py.truthy (installed_packages s')); [|apply grows_lift; exact I].
  apply steps_pfor_list; [exact grows_refl | exact grows_trans|].
  intros a q _. apply grows_lift. exact I.
Qed.

Lemma grows_install_new (plib : PackageLibrary) (sw : SidebarWidgets)
    (p : PageState) :
  steps_within grows (sidebar_install_new plib sw) p.
Proof.
  unfold sidebar_install_new.
  apply steps_pbind; [exact grows_trans | apply grows_lift; exact I|].
  intros _ q1 _.
  apply steps_pbind; [exact grows_trans | apply grows_lift; exact I|].
  intros b q2 _.
  apply steps_pbind; [exact grows_trans | |].
  { destruct b; [apply grows_refresh_available | apply steps_pret, grows_refl]. }
  intros _ q3 _. apply grows_install_selected.
Qed.

Lemma grows_quick_install_block (plib : PackageLibrary) (sw : SidebarWidgets)
    (p : PageState) :
  steps_within grows (sidebar_quick_install plib sw) p.
Proof.
  unfold sidebar_quick_install.
  apply steps_pbind; [exact grows_trans | apply grows_lift; exact I|].
  intros _ q1 _.
  apply steps_pfor_list; [exact grows_refl | exact grows_trans|].
  intros entry q _. unfold quick_install_button.
  apply steps_pbind; [exact grows_trans | apply grows_lift; exact I|].
  intros b q2 _. destruct b; [|apply steps_pret, grows_refl].
  apply steps_pbind; [exact grows_trans | apply grows_lift; exact I|].
  intros s q3 _. apply grows_quick_install.
Qed.

(** The sidebar after its two buttons at the top. *)
Lemma grows_sidebar_rest (plib : PackageLibrary) (sw : SidebarWidgets)
    (p : PageState) :
  steps_within grows
    (pbind (sidebar_installed_list plib)
           (fun _ => pbind (sidebar_install_new plib sw)
                           (fun _ => sidebar_quick_install plib sw))) p.
Proof.
  apply steps_pbind; [exact grows_trans | apply grows_installed_list|].
  intros _ p3 _.
  apply steps_pbind; [exact grows_trans | apply grows_install_new|].
  intros _ p4 _. apply grows_quick_install_block.
Qed.

Lemma grows_sidebar (plib : PackageLibrary) (sw : SidebarWidgets) (p : PageState) :
  steps_within grows (sidebar plib sw) p.
Proof.
  unfold sidebar.
  apply steps_pbind; [exact grows_trans | apply grows_show|]. intros _ p1 _.
  apply steps_pbind; [exact grows_trans | apply grows_refresh_buttons|].
  intros _ p2 _. apply grows_sidebar_rest.
Qed.

(** X20: For every behaviour of the library, every combination of buttons and
    every session, the sidebar ends normally or with a rerun, never with an
    exception: the package to install is always taken from within the stored
    list. What was rendered before and the package calls made before are
    kept, the sidebar only adds to them. *)
Theorem sidebar_never_raises (plib : PackageLibrary) (sw : SidebarWidgets)
    (p : PageState) :
  no_exception (fst (sidebar plib sw p))
  /\ (exists evs, page (snd (sidebar plib sw p)) = page p ++ evs)
  /\ (exists calls, pkg_calls (snd (sidebar plib sw p)) = pkg_calls p ++ calls).
Proof. exact (grows_sidebar plib sw p). Qed.

Lemma pbind_assoc {A B C} (m : P A) (k : A -> P B) (k' : B -> P C) (p : PageState) :
  pbind (pbind m k) k' p = pbind m (fun a => pbind (k a) k') p.
Proof. unfold pbind. destruct (m p) as [[a| |] p']; reflexivity. Qed.

(** X21: The Refresh Installed button reports success whatever the refresh did:
    when the enumeration call raises, the sidebar shows the error of the
    refresh and, right after it, "Refreshed!". *)
Theorem refreshed_is_shown_after_failed_refresh (plib : PackageLibrary)
    (sw : SidebarWidgets) (p : PageState) (e : Py.Exception) :
  refresh_installed_button sw = true ->
  get_installed_languages (translate_module plib (pkg_calls p)) = Py.Raised e ->
  exists evs,
    page (snd (sidebar plib sw p))
    = page p
      ++ [UiHeader ([128230%N] ++ Py.lit " Package Management");
          Shown (UiButton ([128260%N] ++ Py.lit " Refresh Installed"));
          Shown (refresh_message e);
          UiSuccess (Py.lit "Refreshed!")]
      ++ evs.
Proof.
  intros Hb He. unfold sidebar.
  erewrite pbind_normal by reflexivity.
  unfold sidebar_refresh_buttons.
  rewrite pbind_assoc. erewrite pbind_normal by apply lift_st_button.
  rewrite Hb. rewrite !pbind_assoc.
  match goal with
  | |- context [pbind (refresh_installed plib) _ ?q] =>
      assert (Hr : refresh_installed plib q
                   = (Normal tt,
                      mk_page (add_ui (add_call (world q) CallGetInstalledLanguages)
                                      [refresh_message e])
                              (pkg_calls q)
                              (page q ++ map Shown [refresh_message e])))
  end.
  { unfold refresh_installed. apply lift_run; [|reflexivity].
    rewrite refresh_installed_packages_run. cbn [pkg_calls render mk_page show snd].
    rewrite He. reflexivity. }
  erewrite pbind_normal by exact Hr.
  erewrite pbind_normal by reflexivity.
  match goal with
  | |- context [pbind ?m ?k ?q] =>
      assert (Hg : steps_within grows (pbind m k) q)
  end.
  { apply steps_pbind; [exact grows_trans | apply grows_update_button|].
    intros _ q' _. apply grows_sidebar_rest. }
  destruct Hg as [_ [[evs Hevs] _]]. exists evs. rewrite Hevs.
  cbn [show snd page mk_page render map]. rewrite <- !app_assoc. reflexivity.
Qed.

Lemma refreshed_is_shown_after_failed_refresh_witness :
  In (UiSuccess (Py.lit "Refreshed!"))
     (page (snd (sidebar ExPage.plib_offline ExPage.press_refresh ExPage.p0))).
Proof.
  destruct (@refreshed_is_shown_after_failed_refresh ExPage.plib_offline
              ExPage.press_refresh ExPage.p0 Ex.boom eq_refl eq_refl) as [evs H].
  rewrite H. rewrite !in_app_iff. right. left. cbn. tauto.
Defined.

(* ===================================================================== *)
(** ** The sidebar with no button pressed *)
(* ===================================================================== *)

Lemma quiet_render (p : PageState) (evs : list UiEvent) : quiet p (render p evs).
Proof. repeat split. Qed.

Lemma quiet_show (ev : PageEvent) (p : PageState) : steps_within quiet (show ev) p.
Proof. repeat split. Qed.

Lemma quiet_lift_emit (ev : UiEvent) (p : PageState) :
  steps_within quiet (lift (emit ev)) p.
Proof. unfold steps_within. rewrite lift_emit. repeat split. Qed.

Lemma quiet_refresh_installed (plib : PackageLibrary) (p : PageState) :
  steps_within quiet (refresh_installed plib) p.
Proof.
  destruct (refresh_installed_run plib p) as (evs & _ & Hr).
  unfold steps_within. rewrite Hr. split; [exact I|].
  unfold quiet. cbn [snd mk_page pkg_calls world].
  rewrite refresh_installed_packages_run.
  destruct (get_installed_languages (translate_module plib (pkg_calls p)));
    repeat split.
Qed.

Lemma steps_idle_button (label : Py.str) (pressed : bool)
    (k : bool -> P unit) (p : PageState) :
  pressed = false ->
  (forall q, steps_within quiet (k false) q) ->
  steps_within quiet (pbind (lift (st_button label pressed)) k) p.
Proof.
  intros -> Hk.
  eapply steps_pbind_normal;
    [exact quiet_trans | apply lift_st_button | apply quiet_render | apply Hk].
Qed.

(** X22: With no button pressed the sidebar makes no call to the package side
    of the library and leaves the list of available packages and the history
    as they are; it does not end with an exception. *)
Theorem idle_sidebar_is_quiet (plib : PackageLibrary) (sw : SidebarWidgets)
    (p : PageState) :
  idle sw ->
  no_exception (fst (sidebar plib sw p))
  /\ pkg_calls (snd (sidebar plib sw p)) = pkg_calls p
  /\ available_packages (session (world (snd (sidebar plib sw p))))
     = available_packages (session (world p))
  /\ translation_history (session (world (snd (sidebar plib sw p))))
     = translation_history (session (world p)).
Proof.
  intros (H1 & H2 & H3 & H4 & H5).
  change (steps_within quiet (sidebar plib sw) p). unfold sidebar.
  apply steps_pbind; [exact quiet_trans | apply quiet_show|]. intros _ p1 _.
  apply steps_pbind; [exact quiet_trans | |].
  { unfold sidebar_refresh_buttons.
    apply steps_idle_button; [exact H1|]. intros q.
    apply steps_pbind; [exact quiet_trans | apply steps_pret, quiet_refl|].
    intros _ q' _.
    apply steps_idle_button; [exact H2|]. intros q2.
    apply steps_pret, quiet_refl. }
  intros _ p2 _.
  apply steps_pbind; [exact quiet_trans | |].
  { unfold sidebar_installed_list.
    apply steps_pbind; [exact quiet_trans | apply quiet_lift_emit|]. intros _ q1 _.
    eapply steps_pbind_normal;
      [exact quiet_trans | apply lift_get_session | apply quiet_refl|].
    apply steps_pbind; [exact quiet_trans | |].
    { destruct (negb (Py.truthy (installed_packages (session (world q1)))));
        [apply quiet_refresh_installed | apply steps_pret, quiet_refl]. }
    intros _ q3 _.
    eapply steps_pbind_normal;
      [exact quiet_trans | apply lift_get_session | apply quiet_refl|].
    destruct (Py.truthy (installed_packages (session (world q3))));
      [|apply quiet_lift_emit].
    apply steps_pfor_list; [exact quiet_refl | exact quiet_trans|].
    intros a q _. apply quiet_lift_emit. }
  intros _ p3 _.
  apply steps_pbind; [exact quiet_trans | |].
  { unfold sidebar_install_new.
    apply steps_pbind; [exact quiet_trans | apply quiet_lift_emit|]. intros _ q1 _.
    apply steps_idle_button; [exact H3|]. intros q2.
    apply steps_pbind; [exact quiet_trans | apply steps_pret, quiet_refl|].
    intros _ q3 _. unfold sidebar_install_selected.
    eapply steps_pbind_normal;
      [exact quiet_trans | apply lift_get_session | apply quiet_refl|].
    destruct (available_packages (session (world q3))) as [|a0 rest];
      [apply steps_pret, quiet_refl|].
    cbn [map Py.truthy].
    eapply steps_pbind_normal;
      [exact quiet_trans | apply lift_st_selectbox; discriminate
       | apply quiet_render|].
    apply steps_idle_button; [exact H4|]. intros q4.
    apply steps_pret, quiet_refl. }
  intros _ p4 _.
  unfold sidebar_quick_install.
  apply steps_pbind; [exact quiet_trans | apply quiet_lift_emit|]. intros _ q1 _.
  apply steps_pfor_list; [exact quiet_refl | exact quiet_trans|].
  intros entry q _. unfold quick_install_button.
  apply steps_idle_button; [apply H5|]. intros q2.
  apply steps_pret, quiet_refl.
Qed.

Lemma idle_sidebar_is_quiet_witness :
  idle ExPage.no_button
  /\ pkg_calls (snd (sidebar ExPage.plib_ok ExPage.no_button ExPage.p_listed)) = [].
Proof.
  assert (H : idle ExPage.no_button) by (repeat split).
  split; [exact H|].
  exact (proj1 (proj2 (@idle_sidebar_is_quiet ExPage.plib_ok ExPage.no_button
                         ExPage.p_listed H))).
Defined.

(* ===================================================================== *)
(** ** The history view *)
(* ===================================================================== *)

Lemma show_record_run (record : TranslationRecord) (p : PageState) :
  show_record record p
  = (Normal tt,
     mk_page (add_ui (world p) (shown_events (record_events record)))
             (pkg_calls p) (page p ++ record_events record)).
Proof.
  unfold show_record.
  erewrite pbind_normal by reflexivity.
  erewrite pbind_normal by apply lift_emit.
  erewrite pbind_normal by reflexivity.
  erewrite pbind_normal by apply lift_emit.
  unfold show, render, mk_page, add_ui, record_events, shown_events. cbn.
  rewrite <- !app_assoc. reflexivity.
Qed.

Lemma shown_events_app (l1 l2 : list PageEvent) :
  shown_events (l1 ++ l2) = shown_events l1 ++ shown_events l2.
Proof. unfold shown_events. apply flat_map_app. Qed.

Lemma show_records_run (records : list TranslationRecord) (p : PageState) :
  pfor_list records show_record p
  = (Normal tt,
     mk_page (add_ui (world p) (shown_events (flat_map record_events records)))
             (pkg_calls p) (page p ++ flat_map record_events records)).
Proof.
  revert p. induction records as [|r records IH]; intros p.
  - cbn. unfold add_ui, mk_page. rewrite !app_nil_r. destruct p as [[s u c] k pg].
    reflexivity.
  - cbn [pfor_list flat_map].
    erewrite pbind_normal by apply show_record_run.
    rewrite IH. cbn [mk_page world pkg_calls page].
    rewrite add_ui_add_ui, shown_events_app, <- app_assoc. reflexivity.
Qed.

(** X25: The history view renders the five most recent records at most, in the
    order of the history, each as an expander with the original and the
    translation, under one heading; with an empty history it renders nothing.
    It changes nothing in the session and makes no call. *)
Theorem history_view_shows_five (p : PageState) :
  fst (history_view p) = Normal tt
  /\ page (snd (history_view p))
     = page p
       ++ match translation_history (session (world p)) with
          | [] => []
          | _ :: _ =>
              Shown (UiSubheader ([128218%N] ++ Py.lit " Recent Translations"))
              :: flat_map record_events
                   (firstn 5 (translation_history (session (world p))))
          end
  /\ session (world (snd (history_view p))) = session (world p)
  /\ lib_calls (world (snd (history_view p))) = lib_calls (world p)
  /\ pkg_calls (snd (history_view p)) = pkg_calls p.
Proof.
  unfold history_view.
  erewrite pbind_normal by apply lift_get_session.
  destruct (translation_history (session (world p))) as [|r rest] eqn:E.
  - cbn. rewrite app_nil_r. repeat split; reflexivity.
  - cbn [Py.truthy].
    erewrite pbind_normal by apply lift_emit.
    rewrite show_records_run. cbn [fst snd mk_page page world pkg_calls render].
    rewrite <- app_assoc. repeat split; reflexivity.
Qed.

(* ===================================================================== *)
(** ** [main] *)
(* ===================================================================== *)











(** The run of [translation_interface], as that of
    [main_translation_interface], with the flag. *)
Lemma translation_interface_run (lib : Library) (now : Py.str)
    (widgets : Widgets) (w : World) :
  let w1 := snd (refresh_installed_packages lib w) in
  let pairs := map pair_of (installed_packages (session w1)) in
  (pairs = []
   /\ translation_interface lib now widgets w
      = (Normal false,
         add_ui w1
           [UiWarning ([9888%N; 65039%N]
                       ++ Py.lit " No translation packages installed! Please install some packages from the sidebar.");
            UiInfo getting_started]))
  \/ (pairs <> []
      /\ exists si ti fc fn tc tn evs,
        nth_error (from_languages pairs) si = Some (fc, fn)
        /\ nth_error (to_languages pairs fc) ti = Some (tc, tn)
        /\ translation_interface lib now widgets w
           = if clear_button widgets
             then (Rerun, set_input (add_ui w1 evs) [])
             else bind (perform_translation lib now pairs (translate_button widgets)
                          (input_text widgets) (Some si) (Some ti) fc tc)
                       (fun _ => ret true)
                       (add_ui w1 evs)).
Proof.
  intros w1 pairs. unfold translation_interface.
  erewrite bind_normal by apply get_available_language_pairs_run.
  fold w1. fold pairs. clearbody pairs. clearbody w1.
  destruct pairs as [|p rest].
  - left. split; [reflexivity|]. cbn [Py.truthy negb].
    erewrite bind_normal by reflexivity.
    erewrite bind_normal by reflexivity.
    unfold st_info, emit, ret. cbn. unfold add_ui. rewrite <- app_assoc. reflexivity.
  - right. split; [discriminate|]. cbn [Py.truthy negb].
    assert (Hne : p :: rest <> []) by discriminate.
    remember (p :: rest) as pairs eqn:Ep. clear Ep.
    erewrite bind_normal by reflexivity.
    destruct (@select_source_run pairs (from_lang_choice widgets)
                (snd (st_subheader ([128292%N] ++ Py.lit " Select Languages") w1)) Hne)
      as (fc & fn & Hf & Hsrc).
    erewrite bind_normal by exact Hsrc.
    cbn [fst snd].
    assert (Hto : to_languages pairs fc <> []).
    { apply offered_source_has_target with (n := fn).
      eapply nth_error_In. exact Hf. }
    match goal with
    | |- context [bind (select_target _ _ _) _ ?w0] =>
        destruct (@select_target_run pairs fc (to_lang_choice widgets) w0 Hto)
          as (tc & tn & Ht & Htgt)
    end.
    exists (selected_index (List.length (from_languages pairs))
                           (from_lang_choice widgets)),
           (selected_index (List.length (to_languages pairs fc))
                           (to_lang_choice widgets)), fc, fn, tc, tn.
    eexists. split; [exact Hf|]. split; [exact Ht|].
    erewrite bind_normal by exact Htgt.
    cbv beta iota.
    erewrite bind_normal by reflexivity.
    erewrite bind_normal by (apply py_index_run, Hf).
    erewrite bind_normal by reflexivity.
    erewrite bind_normal by reflexivity.
    erewrite bind_normal by reflexivity.
    cbn [snd fst st_subheader st_text_area st_button emit bind ret].
    destruct (clear_button widgets).
    2: { erewrite bind_normal by reflexivity. f_equal.
         unfold add_ui. cbn [session ui lib_calls]. rewrite <- !app_assoc.
         reflexivity. }
    unfold bind. cbn. unfold set_input, add_ui, mk_world. cbn.
    rewrite <- !app_assoc. reflexivity.
Qed.

Lemma perform_translation_keeps_installed (lib : Library) (now : Py.str)
    (available_pairs : list Pair) (button : bool) (text : Py.str)
    (si ti : nat) (from_code to_code fc from_name tc to_name : Py.str) (w : World) :
  nth_error (from_languages available_pairs) si = Some (fc, from_name) ->
  nth_error (to_languages available_pairs from_code) ti = Some (tc, to_name) ->
  fst (perform_translation lib now available_pairs button text (Some si) (Some ti)
         from_code to_code w) = Normal tt
  /\ installed_packages
       (session (snd (perform_translation lib now available_pairs button text
                        (Some si) (Some ti) from_code to_code w)))
     = installed_packages (session w).
Proof.
  intros Hf Ht.
  rewrite (@perform_translation_run lib now available_pairs button text si ti
             from_code to_code fc from_name tc to_name w Hf Ht).
  destruct button; [|split; reflexivity].
  destruct (blank text); [split; reflexivity|].
  destruct (translate lib text from_code to_code) as [[|c rest]|e]; split; reflexivity.
Qed.

Lemma refresh_ui_extends (lib : Library) (w : World) :
  exists evs, ui (snd (refresh_installed_packages lib w)) = ui w ++ evs.
Proof.
  rewrite refresh_installed_packages_run.
  destruct (get_installed_languages lib); eexists; reflexivity.
Qed.

Lemma history_view_keeps_session (p : PageState) :
  fst (history_view p) = Normal tt
  /\ session (world (snd (history_view p))) = session (world p).
Proof.
  unfold history_view.
  erewrite pbind_normal by apply lift_get_session.
  destruct (translation_history (session (world p))) as [|r rest];
    [split; reflexivity|].
  cbn [Py.truthy].
  erewrite pbind_normal by apply lift_emit.
  rewrite show_records_run. split; reflexivity.
Qed.

Lemma footer_keeps_session (p : PageState) :
  fst (footer p) = Normal tt
  /\ session (world (snd (footer p))) = session (world p).
Proof.
  unfold footer.
  erewrite pbind_normal by apply lift_emit.
  erewrite pbind_normal by apply lift_emit.
  unfold st_markdown. rewrite lift_emit. split; reflexivity.
Qed.

(** X27: When nothing is installed, [main] returns from within the translation
    interface (line 284): a run that ends normally with an empty installed
    list has rendered the warning and the getting-started hint last, and
    neither the history view nor the footer. *)
Theorem main_ends_with_hint_without_packages (plib : PackageLibrary) (now : Py.str)
    (sw : SidebarWidgets) (widgets : Widgets) (p : PageState) :
  fst (main plib now sw widgets p) = Normal tt ->
  installed_packages (session (world (snd (main plib now sw widgets p)))) = [] ->
  exists before,
    page (snd (main plib now sw widgets p))
    = before
      ++ [Shown (UiWarning ([9888%N; 65039%N]
                            ++ Py.lit " No translation packages installed! Please install some packages from the sidebar."));
          Shown (UiInfo getting_started)].
Proof.
  unfold main, pbind.
  destruct (page_header p) as [[[]| |] p1]; cbn [fst snd]; try discriminate.
  destruct (sidebar plib sw p1) as [[[]| |] p2]; cbn [fst snd]; try discriminate.
  unfold lift.
  destruct (translation_interface_run (translate_module plib (pkg_calls p2)) now
              widgets (world p2))
    as [[Hp Hrun] | [Hp (si & ti & fc & fn & tc & tn & evs & Hf & Ht & Hrun)]];
    rewrite Hrun; clear Hrun.
  - cbn [fst snd page]. intros _ _.
    destruct (refresh_ui_extends (translate_module plib (pkg_calls p2)) (world p2))
      as [evs0 Hui].
    cbn [add_ui ui]. rewrite Hui, <- app_assoc, skipn_length_app, map_app.
    exists (page p2 ++ map Shown evs0). rewrite <- app_assoc. reflexivity.
  - destruct (clear_button widgets); [cbn; discriminate|].
    unfold bind.
    destruct (@perform_translation_keeps_installed
                (translate_module plib (pkg_calls p2)) now _
                (translate_button widgets) (input_text widgets) si ti fc tc fc fn tc tn
                (add_ui (snd (refresh_installed_packages
                                (translate_module plib (pkg_calls p2)) (world p2))) evs)
                Hf Ht) as [Ho Hinst].
    destruct (perform_translation _ _ _ _ _ _ _ _ _ _) as [o w3].
    cbn [fst snd] in Ho, Hinst. subst o. cbn [ret].
    match goal with
    | |- context [history_view ?q] =>
        destruct (history_view_keeps_session q) as [Hh1 Hh2];
        destruct (history_view q) as [oh p4]; cbn [fst snd] in Hh1, Hh2; subst oh
    end.
    destruct (footer_keeps_session p4) as [Hf1 Hf2].
    destruct (footer p4) as [o5 p5]. cbn [fst snd] in *. subst o5.
    intros _ Hempty. exfalso. apply Hp.
    rewrite Hf2, Hh2 in Hempty. cbn [world session] in Hempty.
    rewrite Hinst in Hempty. cbn [add_ui session] in Hempty.
    now rewrite Hempty.
Qed.

Lemma main_ends_with_hint_without_packages_witness :
  exists before,
    page (snd (main ExPage.plib_ok (Ex.stamp 7) ExPage.no_button ExPage.hello
                 ExPage.p_fresh))
    = before
      ++ [Shown (UiWarning ([9888%N; 65039%N]
                            ++ Py.lit " No translation packages installed! Please install some packages from the sidebar."));
          Shown (UiInfo getting_started)].
Proof.
  apply main_ends_with_hint_without_packages; vm_compute; reflexivity.
Defined.

(* ===================================================================== *)
(** ** The list of installed packages in the sidebar *)
(* ===================================================================== *)

Lemma render_render (p : PageState) (evs1 evs2 : list UiEvent) :
  render (render p evs1) evs2 = render p (evs1 ++ evs2).
Proof.
  unfold render, mk_page. cbn [world pkg_calls page].
  rewrite add_ui_add_ui, map_app, app_assoc. reflexivity.
Qed.

Lemma render_nil (p : PageState) : render p [] = p.
Proof.
  unfold render, mk_page, add_ui. cbn. rewrite !app_nil_r.
  destruct p as [[s u c] k pg]. reflexivity.
Qed.

Lemma installed_lines_run (pkgs : list PackageInfo) (p : PageState) :
  pfor_list pkgs (fun pkg => lift (st_markdown (installed_line pkg))) p
  = (Normal tt, render p (map (fun pkg => UiMarkdown (installed_line pkg)) pkgs)).
Proof.
  revert p. induction pkgs as [|pkg pkgs IH]; intros p.
  - cbn. now rewrite render_nil.
  - cbn [pfor_list map].
    erewrite pbind_normal by apply lift_emit.
    rewrite IH, render_render. reflexivity.
Qed.

(** X23: When the stored list of installed packages is not empty, the sidebar
    lists it without asking the library: it shows the first ten stored
    pairs, in the stored order, and changes nothing in the session. *)
Theorem installed_list_is_shown_from_store (plib : PackageLibrary) (p : PageState) :
  installed_packages (session (world p)) <> [] ->
  sidebar_installed_list plib p
  = (Normal tt,
     render p (UiSubheader (Py.lit "Installed Packages")
               :: map (fun pkg => UiMarkdown (installed_line pkg))
                      (firstn 10 (installed_packages (session (world p)))))).
Proof.
  intros Hne. unfold sidebar_installed_list.
  erewrite pbind_normal by apply lift_emit.
  erewrite pbind_normal by apply lift_get_session.
  change (session (world (render p [UiSubheader (Py.lit "Installed Packages")])))
    with (session (world p)).
  destruct (installed_packages (session (world p))) as [|a rest] eqn:E;
    [contradiction|].
  cbn [Py.truthy negb].
  erewrite pbind_normal by reflexivity.
  erewrite pbind_normal by apply lift_get_session.
  change (session (world (render p [UiSubheader (Py.lit "Installed Packages")])))
    with (session (world p)).
  rewrite E. cbn [Py.truthy].
  rewrite installed_lines_run, render_render. reflexivity.
Qed.

Lemma installed_list_is_shown_from_store_witness :
  fst (sidebar_installed_list ExPage.plib_offline ExPage.p0) = Normal tt
  /\ lib_calls (world (snd (sidebar_installed_list ExPage.plib_offline ExPage.p0))) = [].
Proof.
  assert (H : installed_packages (session (world ExPage.p0)) <> []) by discriminate.
  rewrite (@installed_list_is_shown_from_store ExPage.plib_offline ExPage.p0 H).
  split; reflexivity.
Defined.

(** X24: When the stored list is empty, the sidebar refreshes it first, with
    exactly one enumeration call, and then shows what the refresh stored:
    the pairs, or "No packages installed yet. Install some below!" when the
    list is still empty. *)
Theorem installed_list_refreshes_when_empty (plib : PackageLibrary) (p : PageState) :
  installed_packages (session (world p)) = [] ->
  fst (sidebar_installed_list plib p) = Normal tt
  /\ lib_calls (world (snd (sidebar_installed_list plib p)))
     = lib_calls (world p) ++ [CallGetInstalledLanguages]
  /\ installed_packages (session (world (snd (sidebar_installed_list plib p))))
     = installed_packages
         (session (snd (refresh_installed_packages
                          (translate_module plib (pkg_calls p)) (world p))))
  /\ exists evs,
       page (snd (sidebar_installed_list plib p))
       = page p
         ++ Shown (UiSubheader (Py.lit "Installed Packages"))
            :: map Shown evs
         ++ match installed_packages
                    (session (world (snd (sidebar_installed_list plib p)))) with
            | [] => [Shown (UiInfo (Py.lit "No packages installed yet. Install some below!"))]
            | _ :: _ =>
                map (fun pkg => Shown (UiMarkdown (installed_line pkg)))
                    (firstn 10
                       (installed_packages
                          (session (world (snd (sidebar_installed_list plib p))))))
            end.
Proof.
  intros Hempty. unfold sidebar_installed_list.
  erewrite pbind_normal by apply lift_emit.
  set (q := render p [UiSubheader (Py.lit "Installed Packages")]).
  assert (Hq : pkg_calls q = pkg_calls p
               /\ session (world q) = session (world p)
               /\ lib_calls (world q) = lib_calls (world p)
               /\ page q = page p ++ [Shown (UiSubheader (Py.lit "Installed Packages"))])
    by (repeat split).
  destruct Hq as (Hq1 & Hq2 & Hq3 & Hq4). clearbody q.
  erewrite pbind_normal by apply lift_get_session.
  rewrite Hq2, Hempty. cbn [Py.truthy negb].
  destruct (refresh_installed_run plib q) as (evs & Hui & Hr).
  erewrite pbind_normal by exact Hr.
  erewrite pbind_normal by apply lift_get_session.
  cbn [mk_page world]. rewrite Hq1 in *.
  assert (Hc : lib_calls (snd (refresh_installed_packages
                                 (translate_module plib (pkg_calls p)) (world q)))
               = lib_calls (world p) ++ [CallGetInstalledLanguages]
               /\ installed_packages
                    (session (snd (refresh_installed_packages
                                     (translate_module plib (pkg_calls p)) (world q))))
                  = installed_packages
                      (session (snd (refresh_installed_packages
                                       (translate_module plib (pkg_calls p))
                                       (world p))))).
  { rewrite !refresh_installed_packages_run.
    destruct (get_installed_languages (translate_module plib (pkg_calls p)));
      cbn; rewrite ?Hq2, ?Hq3; split; reflexivity. }
  destruct Hc as [Hc Hi].
  set (w1 := snd (refresh_installed_packages
                    (translate_module plib (pkg_calls p)) (world q))) in *.
  clearbody w1. rewrite <- Hi. clear Hi Hr.
  destruct (installed_packages (session w1)) as [|a rest] eqn:E.
  - cbn [Py.truthy]. unfold st_info. rewrite lift_emit.
    cbn [fst snd render mk_page world page add_ui lib_calls session].
    rewrite E, Hc, Hq4.
    repeat split; try reflexivity.
    exists evs. cbn [map]. rewrite <- !app_assoc. reflexivity.
  - cbn [Py.truthy]. rewrite installed_lines_run.
    cbn [fst snd render mk_page world page add_ui lib_calls session].
    rewrite E, Hc, Hq4.
    repeat split; try reflexivity.
    exists evs. rewrite map_map. cbn [map]. rewrite <- !app_assoc. reflexivity.
Qed.

Lemma installed_list_refreshes_when_empty_witness :
  lib_calls (world (snd (sidebar_installed_list ExPage.plib_ok ExPage.p_fresh)))
  = [CallGetInstalledLanguages].
Proof.
  exact (proj1 (proj2 (@installed_list_refreshes_when_empty ExPage.plib_ok
                         ExPage.p_fresh eq_refl))).
Defined.
